(** * scripts/evaluate_mcp.py: the differential MCP test harness

    A shallow embedding of the transport client ([_send_request]), the tool
    adapter ([list_tools], [call_tool]), the comparator ([compare_results])
    and the session teardown ([stop] and the [finally] block of
    [run_evaluation]), with the properties the specification states about
    them; then of the handshake ([start], [_send_notification]), the test
    loops and the whole of [run_evaluation], and the summary
    ([print_summary]), with further properties read off the code.

    Python values that [json.loads] can produce are the type [value];
    exceptions are the type [exn]; a call that may raise returns a
    [result].  The two library functions [json.loads] and [json.dumps],
    the textual form of a set and of a value inside an f-string, and the
    iteration order of a Python [set] are parameters of the development. *)

From Stdlib Require Import ZArith String Ascii SpecFloat.
From stdpp Require Import gmap strings list fin_maps pretty.

#[local] Set Warnings "-register-all,-clear-no-such-hyp".
#[local] Open Scope string_scope.

(** ** Python values *)

(** What [json.loads] returns: [None], [bool], [int], [float], [str],
    [list] and [dict] with [str] keys. *)
Inductive value : Type :=
| VNone
| VBool (b : bool)
| VInt (n : Z)
| VFloat (f : spec_float)
| VStr (s : string)
| VList (l : list value)
| VDict (d : gmap string value).

(** [type(v)], and [type(v).__name__]. *)
Inductive pytype : Type :=
| TNoneType | TBool | TInt | TFloat | TStr | TList | TDict.

#[global] Instance pytype_eq_dec : EqDecision pytype.
Proof. solve_decision. Defined.

Definition type_of (v : value) : pytype :=
  match v with
  | VNone => TNoneType
  | VBool _ => TBool
  | VInt _ => TInt
  | VFloat _ => TFloat
  | VStr _ => TStr
  | VList _ => TList
  | VDict _ => TDict
  end.

Definition type_name (t : pytype) : string :=
  match t with
  | TNoneType => "NoneType"
  | TBool => "bool"
  | TInt => "int"
  | TFloat => "float"
  | TStr => "str"
  | TList => "list"
  | TDict => "dict"
  end.

(** ** Exceptions and results *)

Inductive exn : Type :=
| RuntimeError (msg : string)
| TypeError
| AttributeError
| KeyError
| IndexError
| TimeoutExpired.

Inductive result (A : Type) : Type :=
| Return (a : A)
| Raise (e : exn).
Arguments Return {A} a.
Arguments Raise {A} e.

#[global] Instance result_ret : MRet result := λ A a, Return a.
#[global] Instance result_bind : MBind result := λ A B f r,
  match r with
  | Return a => f a
  | Raise e => Raise e
  end.

Definition raises {A} (r : result A) : Prop :=
  match r with
  | Return _ => False
  | Raise _ => True
  end.

(** ** The builtins the harness applies to decoded values *)

Module Py.

(** [x == key] for a [str] [key]: only an equal [str] compares equal. *)
Definition eq_str (key : string) (x : value) : bool :=
  match x with
  | VStr s => String.eqb key s
  | _ => false
  end.

(** [key in v]: key membership on a [dict], element membership on a
    [list], substring test on a [str]; the other types are not iterable. *)
Definition contains (key : string) (v : value) : result bool :=
  match v with
  | VDict d => Return (bool_decide (key ∈ dom d))
  | VList l => Return (existsb (eq_str key) l)
  | VStr s => Return (bool_decide (is_Some (String.index 0 key s)))
  | VNone | VBool _ | VInt _ | VFloat _ => Raise TypeError
  end.

(** [v.get(key, dflt)]: only a [dict] has [get]. *)
Definition get (v : value) (key : string) (dflt : value) : result value :=
  match v with
  | VDict d => Return (default dflt (d !! key))
  | _ => Raise AttributeError
  end.

(** [v[key]] for a [str] [key]. *)
Definition getitem (v : value) (key : string) : result value :=
  match v with
  | VDict d =>
      match d !! key with
      | Some x => Return x
      | None => Raise KeyError
      end
  | _ => Raise TypeError
  end.

(** [v[0]]. A decoded [dict] has only [str] keys, so [0] is never one. *)
Definition first (v : value) : result value :=
  match v with
  | VList (x :: _) => Return x
  | VList [] => Raise IndexError
  | VStr (String c _) => Return (VStr (String c EmptyString))
  | VStr EmptyString => Raise IndexError
  | VDict _ => Raise KeyError
  | VNone | VBool _ | VInt _ | VFloat _ => Raise TypeError
  end.

(** Truth value of [v], as [if v:] tests it. *)
Definition truthy (v : value) : bool :=
  match v with
  | VNone => false
  | VBool b => b
  | VInt n => negb (n =? 0)%Z
  | VFloat (S754_zero _) => false
  | VFloat _ => true
  | VStr s => negb (String.eqb s EmptyString)
  | VList l => negb (bool_decide (l = []))
  | VDict d => negb (bool_decide (d = ∅))
  end.

(** [len(v)]. *)
Definition len (v : value) : result nat :=
  match v with
  | VStr s => Return (String.length s)
  | VList l => Return (length l)
  | VDict d => Return (size d)
  | VNone | VBool _ | VInt _ | VFloat _ => Raise TypeError
  end.

End Py.

(** ** Differential comparator *)

(** One entry of the list [compare_results] returns.  Each constructor is
    one of the f-strings of the source, with the values it interpolates;
    [message] gives its text. *)
Inductive difference : Type :=
| PythonErrored
| TypeScriptErrored
| KeysMissingInTypeScript (missing_in_ts : gset string)
| KeysMissingInPython (missing_in_py : gset string)
| ArrayLengthDiffers (key : string) (py_len ts_len : nat)
| TypeMismatch (key : string) (py_type ts_type : pytype).

#[global] Instance difference_eq_dec : EqDecision difference.
Proof. solve_decision. Defined.

(** The differences that speak of a given key: the per-key ones for that
    key, and a key-set difference that lists it. *)
Definition about (key : string) (d : difference) : bool :=
  match d with
  | PythonErrored | TypeScriptErrored => false
  | KeysMissingInTypeScript ks | KeysMissingInPython ks => bool_decide (key ∈ ks)
  | ArrayLengthDiffers k _ _ | TypeMismatch k _ _ => String.eqb k key
  end.

(** The default of [ignore_keys]. *)
Definition default_ignore_keys : gset string :=
  list_to_set ["updated"; "created"; "created_on"; "updated_on"; "date"; "timestamp"].

Section Comparator.

(** How a set of keys prints inside an f-string. *)
Variable set_repr : gset string → string.

(** The order in which [for key in py_keys & ts_keys] visits a set.
    Python leaves it unspecified; every result below that depends on it
    assumes only that each element is visited once ([set_iter_spec]). *)
Variable set_iter : gset string → list string.

Definition set_iter_spec : Prop := ∀ X : gset string, set_iter X ≡ₚ elements X.

Definition message (d : difference) : string :=
  match d with
  | PythonErrored => "Python returned error, TypeScript did not"
  | TypeScriptErrored => "TypeScript returned error, Python did not"
  | KeysMissingInTypeScript ks => "Keys missing in TypeScript: " ++ set_repr ks
  | KeysMissingInPython ks => "Keys missing in Python: " ++ set_repr ks
  | ArrayLengthDiffers key n m =>
      "Array '" ++ key ++ "' length differs: Python=" ++ pretty n
        ++ ", TypeScript=" ++ pretty m
  | TypeMismatch key t u =>
      "Type mismatch for '" ++ key ++ "': Python=" ++ type_name t
        ++ ", TypeScript=" ++ type_name u
  end.

(** The [# Check for errors] chain: [None] is the early [return []],
    [Some ds] the list carried on to the key comparison. *)
Definition check_errors (py_result ts_result : gmap string value)
  : option (list difference) :=
  let py_err := bool_decide ("error" ∈ dom py_result) in
  let ts_err := bool_decide ("error" ∈ dom ts_result) in
  if py_err && negb ts_err then Some [PythonErrored]
  else if negb py_err && ts_err then Some [TypeScriptErrored]
  else if py_err && ts_err then None
  else Some [].

(** The [# Compare top-level keys] block. *)
Definition compare_key_sets (py_keys ts_keys : gset string) : list difference :=
  if decide (py_keys ≠ ts_keys) then
    let missing_in_ts := py_keys ∖ ts_keys in
    let missing_in_py := ts_keys ∖ py_keys in
    (if decide (missing_in_ts ≠ ∅) then [KeysMissingInTypeScript missing_in_ts] else [])
    ++ (if decide (missing_in_py ≠ ∅) then [KeysMissingInPython missing_in_py] else [])
  else [].

(** The body of the [# Compare common keys] loop.  [key] comes from both
    key sets, so the two lookups succeed. *)
Definition compare_key (py_result ts_result : gmap string value) (key : string)
  : list difference :=
  match py_result !! key, ts_result !! key with
  | Some py_val, Some ts_val =>
      match py_val, ts_val with
      | VList a, VList b =>
          if decide (length a ≠ length b)
          then [ArrayLengthDiffers key (length a) (length b)]
          else []
      | _, _ =>
          if decide (type_of py_val ≠ type_of ts_val)
          then [TypeMismatch key (type_of py_val) (type_of ts_val)]
          else []
      end
  | _, _ => []
  end.

(** Everything after the error check: key sets, then common keys. *)
Definition compare_fields (py_result ts_result : gmap string value)
    (ignore_keys : gset string) : list difference :=
  let py_keys := dom py_result ∖ ignore_keys in
  let ts_keys := dom ts_result ∖ ignore_keys in
  compare_key_sets py_keys ts_keys
  ++ flat_map (compare_key py_result ts_result) (set_iter (py_keys ∩ ts_keys)).

Definition compare_results (py_result ts_result : gmap string value)
    (ignore_keys : option (gset string)) : list difference :=
  let ignore_keys := default default_ignore_keys ignore_keys in
  match check_errors py_result ts_result with
  | None => []
  | Some differences =>
      differences ++ compare_fields py_result ts_result ignore_keys
  end.

(** The list of strings the source returns. *)
Definition compare_results_text (py_result ts_result : gmap string value)
    (ignore_keys : option (gset string)) : list string :=
  message <$> compare_results py_result ts_result ignore_keys.

End Comparator.

(** ** Subprocess and session *)

Definition nl : string := String (ascii_of_nat 10) EmptyString.

(** Signals the harness can ask [Popen] to deliver: [terminate()] sends
    [SIGTERM], [kill()] would send [SIGKILL]. *)
Inductive signal : Type := SIGTERM | SIGKILL.

(** A [subprocess.Popen] in text mode with three pipes, seen from the
    harness.  [stdout] holds the complete lines the child has written and
    the harness has not read yet, each without its newline, and
    [stdout_rest] the text after the last newline; the child has closed
    its output after them.  [stdin] is what the harness has written, and
    writing is taken to succeed: the child keeps its end of the pipe open
    while requests are sent (a write to a child that is gone raises
    [BrokenPipeError], and such runs are not described here).
    [exits_within t] tells whether the child is gone [t] seconds after the
    harness has begun to stop it: at [0] it is what the [poll()] inside
    [terminate()] finds, for a child that had exited by itself, and at
    [t] what [wait(timeout=t)] finds before it gives up.  [reaped]
    records that the child's return code has been collected
    ([returncode is not None]). *)
Record Popen : Type := mkPopen {
  stdin : list string;
  stdout : list string;
  stdout_rest : string;
  stderr : string;
  signals : list signal;
  exits_within : N → bool;
  reaped : bool
}.

Definition write_stdin (p : Popen) (text : string) : Popen :=
  mkPopen (stdin p ++ [text])%list (stdout p) (stdout_rest p) (stderr p)
          (signals p) (exits_within p) (reaped p).

Definition set_stdout (p : Popen) (lines : list string) (rest : string) : Popen :=
  mkPopen (stdin p) lines rest (stderr p) (signals p) (exits_within p) (reaped p).

(** [p.stderr.read()]: everything that is left, and the pipe is drained. *)
Definition read_stderr (p : Popen) : string * Popen :=
  (stderr p,
   mkPopen (stdin p) (stdout p) (stdout_rest p) EmptyString
           (signals p) (exits_within p) (reaped p)).

(** [p.poll() is not None]: the return code was collected before, or
    the child is found to have exited. *)
Definition poll (p : Popen) : bool := reaped p || exits_within p 0.

Definition set_reaped (p : Popen) : Popen :=
  mkPopen (stdin p) (stdout p) (stdout_rest p) (stderr p)
          (signals p) (exits_within p) true.

(** [p.terminate()], that is [p.send_signal(SIGTERM)]: it polls first,
    and a child that has exited is sent nothing. *)
Definition deliver (p : Popen) (sig : signal) : Popen :=
  mkPopen (stdin p) (stdout p) (stdout_rest p) (stderr p)
          (signals p ++ [sig])%list (exits_within p) (reaped p).

Definition terminate (p : Popen) : Popen :=
  if poll p then set_reaped p else deliver p SIGTERM.

(** [p.wait(timeout=t)]: it returns at once for a child that has exited,
    and raises [TimeoutExpired] when the child is still there after [t]
    seconds. *)
Definition wait (p : Popen) (t : N) : result unit * Popen :=
  if poll p || exits_within p t
  then (Return (), set_reaped p)
  else (Raise TimeoutExpired, p).

Record MCPServer : Type := mkMCPServer {
  name : string;
  command : list string;
  env : gmap string string;
  process : option Popen
}.

Definition set_process (self : MCPServer) (p : Popen) : MCPServer :=
  mkMCPServer (name self) (command self) (env self) (Some p).

(** A session together with the module-level state its methods touch:
    the counter [_message_id] and what was printed to [sys.stderr]. *)
Record state : Type := mkState {
  session : MCPServer;
  _message_id : N;
  sys_stderr : list string
}.

(** A method of [MCPServer]: it may raise, and it updates the state
    either way. *)
Definition M (A : Type) : Type := state → result A * state.

#[global] Instance M_ret : MRet M := λ A a st, (Return a, st).
#[global] Instance M_bind : MBind M := λ A B f m st,
  match m st with
  | (Return a, st') => f a st'
  | (Raise e, st') => (Raise e, st')
  end.

Definition lift {A} (r : result A) : M A := λ st, (r, st).

(** [next_id()]. *)
Definition next_id : M N := λ st,
  let n := (_message_id st + 1)%N in
  (Return n, mkState (session st) n (sys_stderr st)).

Section Transport.

(** [json.loads] on a [str]: [None] stands for [JSONDecodeError]. *)
Variable json_loads : string → option value.

(** [json.dumps]. *)
Variable json_dumps : value → string.

(** [str(v)], as an f-string interpolates a value. *)
Variable py_str : value → string.

(** What one pass of the [while True] body does with a line it has read. *)
Inductive line_outcome : Type :=
| Respond (response : value)
| Fail (e : exn)
| Skip (printed : list string).

(** The [try] block of the read loop, for a non-empty [response_line]. *)
Definition on_line (self_name response_line : string) : line_outcome :=
  match json_loads response_line with
  | Some response =>
      match Py.contains "id" response with
      | Return true => Respond response
      | Return false => Skip []
      | Raise e => Fail e
      end
  | None =>
      Skip ["[" ++ self_name ++ "] Invalid JSON: "
            ++ substring 0 100 response_line ++ "..."]
  end.

(** [readline()] came back empty. *)
Definition closed_unexpectedly (self_name : string) (p : Popen)
  : result value * Popen :=
  let '(err, p') := read_stderr p in
  (Raise (RuntimeError ("Server " ++ self_name ++ " closed unexpectedly: " ++ err)),
   p').

(** The [while True] loop of [_send_request], by recursion on the lines
    still to be read ([lines] is [stdout p]).  It returns the outcome, the
    subprocess afterwards and what was printed to [sys.stderr]. *)
Fixpoint read_loop (self_name : string) (lines : list string) (p : Popen)
  : result value * Popen * list string :=
  match lines with
  | l :: lines' =>
      let p' := set_stdout p lines' (stdout_rest p) in
      match on_line self_name (l ++ nl) with
      | Respond response => (Return response, p', [])
      | Fail e => (Raise e, p', [])
      | Skip printed =>
          let '(r, p'', more) := read_loop self_name lines' p' in
          (r, p'', (printed ++ more)%list)
      end
  | [] =>
      match stdout_rest p with
      | EmptyString => (closed_unexpectedly self_name p, [])
      | String _ _ as response_line =>
          let p' := set_stdout p [] EmptyString in
          match on_line self_name response_line with
          | Respond response => (Return response, p', [])
          | Fail e => (Raise e, p', [])
          | Skip printed => (closed_unexpectedly self_name p', printed)
          end
      end
  end.

Definition _send_request (method : string) (params : value) : M value := λ st,
  match process (session st) with
  | None =>
      (Raise (RuntimeError ("Server " ++ name (session st) ++ " not started")), st)
  | Some p =>
      let '(_, st1) := next_id st in
      let msg_id := _message_id st1 in
      let request := VDict (list_to_map
        [("jsonrpc", VStr "2.0"); ("id", VInt (Z.of_N msg_id));
         ("method", VStr method); ("params", params)]) in
      let request_line := json_dumps request ++ nl in
      let p1 := write_stdin p request_line in
      let '(r, p2, printed) := read_loop (name (session st)) (stdout p1) p1 in
      (r, mkState (set_process (session st) p2) msg_id (sys_stderr st ++ printed)%list)
  end.

(** A line of the stream that is not valid JSON, and one that decodes to
    an object without [id] (a notification). *)
Definition malformed (line : string) : Prop :=
  json_loads (line ++ nl) = None.

Definition is_notification (line : string) : Prop :=
  ∃ d, json_loads (line ++ nl) = Some (VDict d) ∧ ("id" ∉ dom d).

(** A line the loop passes over: it does not decode, or what it decodes
    to fails the test [id in response]. *)
Definition skipped (line : string) : Prop :=
  json_loads (line ++ nl) = None
  ∨ ∃ v, json_loads (line ++ nl) = Some v ∧ Py.contains "id" v = Return false.

(** What reading [lines] prints to [sys.stderr]: one message for each
    line that is not valid JSON. *)
Definition invalid_json_log (self_name : string) (lines : list string)
  : list string :=
  flat_map (λ l,
    match json_loads (l ++ nl) with
    | None => ["[" ++ self_name ++ "] Invalid JSON: "
               ++ substring 0 100 (l ++ nl) ++ "..."]
    | Some _ => []
    end) lines.

(** ** Tool adapter *)

(** What [list_tools] makes of the response it received. *)
Definition tools_of (response : value) : result value :=
  has_error ← Py.contains "error" response;
  if (has_error : bool) then
    e ← Py.getitem response "error";
    Raise (RuntimeError ("Error listing tools: " ++ py_str e))
  else
    result ← Py.get response "result" (VDict ∅);
    Py.get result "tools" (VList []).

Definition list_tools : M value :=
  response ← _send_request "tools/list" (VDict ∅);
  lift (tools_of response).

(** [json.loads(text)] under [except json.JSONDecodeError]. *)
Definition decode_text (text : value) : result value :=
  match text with
  | VStr s =>
      match json_loads s with
      | Some v => Return v
      | None => Return (VDict {[ "raw" := text ]})
      end
  | _ => Raise TypeError
  end.

(** What [call_tool] makes of the response it received. *)
Definition unwrap (response : value) : result value :=
  has_error ← Py.contains "error" response;
  if (has_error : bool) then
    e ← Py.getitem response "error";
    Return (VDict {[ "error" := e ]})
  else
    result ← Py.get response "result" (VDict ∅);
    contents ← Py.get result "content" (VList []);
    nonempty ← (if Py.truthy contents
                then n ← Py.len contents; Return (bool_decide (0 < n))
                else Return false);
    if (nonempty : bool) then
      block ← Py.first contents;
      text ← Py.get block "text" (VStr "{}");
      decode_text text
    else Return result.

(** The parameters of the [tools/call] request. *)
Definition call_params (tool_name : string) (arguments : value) : value :=
  VDict (list_to_map [("name", VStr tool_name); ("arguments", arguments)]).

Definition call_tool (tool_name : string) (arguments : value) : M value :=
  response ← _send_request "tools/call" (call_params tool_name arguments);
  lift (unwrap response).

End Transport.

(** ** Session teardown *)

(** [MCPServer.stop]. *)
Definition stop (self : MCPServer) : result unit * MCPServer :=
  match process self with
  | Some p =>
      let '(r, p') := wait (terminate p) 5 in
      (r, set_process self p')
  | None => (Return (), self)
  end.

(** The two sessions [run_evaluation] owns; [py_server] is [None] in
    TypeScript-only mode. *)
Record servers : Type := mkServers {
  ts_server : MCPServer;
  py_server : option MCPServer
}.

(** The [finally] block of [run_evaluation]. *)
Definition run_evaluation_finally (s : servers) : result unit * servers :=
  match stop (ts_server s) with
  | (Raise e, ts) => (Raise e, mkServers ts (py_server s))
  | (Return _, ts) =>
      match py_server s with
      | Some py =>
          let '(r, py') := stop py in
          (r, mkServers ts (Some py'))
      | None => (Return (), mkServers ts None)
      end
  end.

(** [try: ... finally: ...] of [run_evaluation], for any [try] block: an
    exception of the [finally] block replaces the outcome of the [try]
    block. *)
Definition run_evaluation_with {A} (try_block : servers → result A * servers)
    (s : servers) : result A * servers :=
  let '(r, s1) := try_block s in
  match run_evaluation_finally s1 with
  | (Return _, s2) => (r, s2)
  | (Raise e, s2) => (Raise e, s2)
  end.

(** ** Vocabulary of the statements *)

(** The difference that names the side carrying [error], when exactly one
    side does. *)
Definition errored_side (py_result : gmap string value) : difference :=
  if bool_decide ("error" ∈ dom py_result) then PythonErrored else TypeScriptErrored.

Definition exactly_one_errored (py_result ts_result : gmap string value) : Prop :=
  (("error" ∈ dom py_result) ∧ ("error" ∉ dom ts_result))
  ∨ (("error" ∉ dom py_result) ∧ ("error" ∈ dom ts_result)).

(** [v.key] for an object [v]; nothing when [v] is not an object or has
    no such field. *)
Definition field (key : string) (v : value) : option value :=
  match v with
  | VDict d => d !! key
  | _ => None
  end.

(** The same state with another value of the counter [_message_id]. *)
Definition with_message_id (st : state) (n : N) : state :=
  mkState (session st) n (sys_stderr st).

(** ** Sample inputs *)

(** Closes a decidable goal about concrete data by evaluation. *)
Ltac by_evaluation := apply (bool_decide_unpack _); vm_compute; exact I.
Ltac by_computation := vm_compute; reflexivity.

(** A failed call on one side, a successful one on the other. *)
Definition failed_call : gmap string value := {[ "error" := VStr "boom" ]}.
Definition plain_call : gmap string value := {[ "ok" := VBool true ]}.

(** Two listings whose [items] differ in length. *)
Definition two_items : gmap string value :=
  {[ "items" := VList [VInt 1; VInt 2] ]}.
Definition one_item : gmap string value :=
  {[ "items" := VList [VStr "x"] ]}.

(** The same listings inside results that both carry [error]. *)
Definition failed_two_items : gmap string value :=
  <[ "error" := VInt 1 ]> two_items.
Definition failed_one_item : gmap string value :=
  <[ "error" := VInt 2 ]> one_item.

Definition dq : string := String (ascii_of_nat 34) EmptyString.
Definition quoted (s : string) : string := dq ++ s ++ dq.

(** Lines a server may write, and what [json.loads] makes of them. *)
Definition noise_line : string := "not json{".

Definition notification_line : string :=
  "{" ++ quoted "method" ++ ": " ++ quoted "notifications/progress" ++ "}".
Definition notification_object : gmap string value :=
  {[ "method" := VStr "notifications/progress" ]}.

Definition tools_line : string :=
  "{" ++ quoted "id" ++ ": 1, " ++ quoted "result" ++ ": {"
      ++ quoted "tools" ++ ": []}}".
Definition tools_response : gmap string value :=
  {[ "id" := VInt 1; "result" := VDict {[ "tools" := VList [] ]} ]}.

Definition stray_line : string :=
  "{" ++ quoted "id" ++ ": 99, " ++ quoted "result" ++ ": {}}".
Definition stray_response : gmap string value :=
  {[ "id" := VInt 99; "result" := VDict ∅ ]}.

(** A tool result whose first content block carries the text of a JSON
    array, and one whose first block has no text. *)
Definition content_line : string :=
  "{" ++ quoted "id" ++ ": 1, " ++ quoted "result" ++ ": {"
      ++ quoted "content" ++ ": [{" ++ quoted "type" ++ ": " ++ quoted "text"
      ++ ", " ++ quoted "text" ++ ": " ++ quoted "[1, 2]" ++ "}]}}".
Definition content_block : gmap string value :=
  {[ "type" := VStr "text"; "text" := VStr "[1, 2]" ]}.
Definition content_result : gmap string value :=
  {[ "content" := VList [VDict content_block] ]}.
Definition content_response : gmap string value :=
  {[ "id" := VInt 1; "result" := VDict content_result ]}.

Definition image_line : string :=
  "{" ++ quoted "id" ++ ": 1, " ++ quoted "result" ++ ": {"
      ++ quoted "content" ++ ": [{" ++ quoted "type" ++ ": " ++ quoted "image"
      ++ "}]}}".
Definition image_block : gmap string value := {[ "type" := VStr "image" ]}.
Definition image_result : gmap string value :=
  {[ "content" := VList [VDict image_block] ]}.
Definition image_response : gmap string value :=
  {[ "id" := VInt 1; "result" := VDict image_result ]}.

(** A decoder that agrees with [json.loads] on the sample lines (as
    [readline] returns them) and on the text of the sample content
    blocks, and rejects every other text. *)
Definition sample_loads (s : string) : option value :=
  if String.eqb s (notification_line ++ nl) then Some (VDict notification_object)
  else if String.eqb s (tools_line ++ nl) then Some (VDict tools_response)
  else if String.eqb s (stray_line ++ nl) then Some (VDict stray_response)
  else if String.eqb s (content_line ++ nl) then Some (VDict content_response)
  else if String.eqb s (image_line ++ nl) then Some (VDict image_response)
  else if String.eqb s ("5" ++ nl) then Some (VInt 5)
  else if String.eqb s "{}" then Some (VDict ∅)
  else if String.eqb s "[1, 2]" then Some (VList [VInt 1; VInt 2])
  else None.

(** An encoder for the requests of the samples; the text of a request
    plays no part below. *)
Definition sample_dumps (v : value) : string :=
  match v with
  | VDict d =>
      match d !! "id", d !! "method" with
      | Some (VInt n), Some (VStr m) =>
          "{" ++ quoted "jsonrpc" ++ ": " ++ quoted "2.0" ++ ", "
              ++ quoted "id" ++ ": " ++ pretty n ++ ", "
              ++ quoted "method" ++ ": " ++ quoted m ++ ", "
              ++ quoted "params" ++ ": {}}"
      | _, _ => "{}"
      end
  | _ => "null"
  end.

Definition sample_str (v : value) : string :=
  match v with
  | VStr s => s
  | _ => "{}"
  end.

(** A subprocess that has written [lines] and then closed its output;
    it is still running when it is stopped, and exits on [terminate()]
    when [obedient]. *)
Definition child (lines : list string) (obedient : bool) : Popen :=
  mkPopen [] lines EmptyString EmptyString []
          (λ t, obedient && negb (t =? 0)%N) false.

(** A subprocess that has exited by itself before it is stopped. *)
Definition exited_child (lines : list string) : Popen :=
  mkPopen [] lines EmptyString EmptyString [] (λ _, true) false.

(** A started session with such a subprocess. *)
Definition started (self_name : string) (lines : list string) (obedient : bool)
  : MCPServer :=
  mkMCPServer self_name ["node"; "dist/index.js"] ∅ (Some (child lines obedient)).

Definition fresh (lines : list string) : state :=
  mkState (started "TypeScript" lines true) 0 [].

(** A stream with diagnostic output and a notification before the
    response. *)
Definition noisy : state := fresh [noise_line; notification_line; tools_line].

(** Two sessions at teardown: the TypeScript server ignores the terminate
    signal, the Python server would obey it. *)
Definition stubborn_pair : servers :=
  mkServers (started "TypeScript" [] false) (Some (started "Python" [] true)).

(** Two sessions that both exit when asked to. *)
Definition obedient_pair : servers :=
  mkServers (started "TypeScript" [] true) (Some (started "Python" [] true)).

(** The state in which a request leaves a sample session. *)
Definition after (method : string) (params : value) (st : state) : state :=
  (_send_request sample_loads sample_dumps method params st).2.

(** ** Further vocabulary *)

(** What the per-key comparison looks at: the lengths of two sequences,
    the types of any other two values. *)
Definition same_shape (u v : value) : bool :=
  match u, v with
  | VList a, VList b => bool_decide (length a = length b)
  | _, _ => bool_decide (type_of u = type_of v)
  end.

Definition is_list (v : value) : bool :=
  match v with
  | VList _ => true
  | _ => false
  end.

Definition both_errored (py_result ts_result : gmap string value) : Prop :=
  ("error" ∈ dom py_result) ∧ ("error" ∈ dom ts_result).

(** The request [_send_request] builds for an id. *)
Definition request (msg_id : N) (method : string) (params : value) : value :=
  VDict (list_to_map
    [("jsonrpc", VStr "2.0"); ("id", VInt (Z.of_N msg_id));
     ("method", VStr method); ("params", params)]).

(** What a request leaves behind: one id consumed, one line written
    after the earlier ones, the same signals, and an output that is a
    suffix of the earlier one. *)
Definition one_request (json_dumps : value → string) (method : string)
    (params : value) (st : state) (p : Popen) (st' : state) : Prop :=
  _message_id st' = (_message_id st + 1)%N
  ∧ name (session st') = name (session st)
  ∧ ∃ q, process (session st') = Some q
      ∧ stdin q
        = (stdin p
           ++ [(json_dumps (request (_message_id st + 1) method params)
                ++ nl)%string])%list
      ∧ signals q = signals p
      ∧ ∃ consumed, stdout p = (consumed ++ stdout q)%list.

(** Numbers, booleans and [None]: the values [in] cannot be asked of. *)
Definition is_scalar (v : value) : bool :=
  match v with
  | VNone | VBool _ | VInt _ | VFloat _ => true
  | VStr _ | VList _ | VDict _ => false
  end.

(** ** Notifications and the handshake *)

Section Lifecycle.

Variable json_loads : string → option value.
Variable json_dumps : value → string.

(** [subprocess.Popen(self.command, ..., env=full_env, text=True)]: the
    child that is created for a command line and an environment.
    Creating it is taken to succeed. *)
Variable popen : list string → gmap string string → Popen.

(** [os.environ]. *)
Variable os_environ : gmap string string.

(** The message [_send_notification] builds. *)
Definition notification (method : string) (params : value) : value :=
  VDict (list_to_map
    [("jsonrpc", VStr "2.0"); ("method", VStr method); ("params", params)]).

Definition _send_notification (method : string) (params : value) : M unit := λ st,
  match process (session st) with
  | None =>
      (Raise (RuntimeError ("Server " ++ name (session st) ++ " not started")), st)
  | Some p =>
      let notification_line := json_dumps (notification method params) ++ nl in
      (Return (),
       mkState (set_process (session st) (write_stdin p notification_line))
               (_message_id st) (sys_stderr st))
  end.

(** The parameters of the [initialize] request. *)
Definition initialize_params : value :=
  VDict (list_to_map
    [("protocolVersion", VStr "2024-11-05");
     ("capabilities", VDict ∅);
     ("clientInfo",
      VDict (list_to_map [("name", VStr "evaluate_mcp");
                          ("version", VStr "1.0.0")]))]).

(** [{**os.environ, **self.env}]: the later entries win. *)
Definition full_env (self : MCPServer) : gmap string string :=
  env self ∪ os_environ.

(** [MCPServer.start]. *)
Definition start : M unit := λ st,
  let self := session st in
  let spawned :=
    mkState (set_process self (popen (command self) (full_env self)))
            (_message_id st) (sys_stderr st) in
  (_ ← _send_request json_loads json_dumps "initialize" initialize_params;
   _send_notification "notifications/initialized" (VDict ∅)) spawned.

End Lifecycle.

(** ** The comparator on arbitrary results *)

(** [call_tool] returns whatever the text of the first content block
    decodes to, so [compare_results] can be handed values that are not
    mappings.  [compare_results_any] is the same function on every pair
    of values: the membership tests come first, and taking the keys of a
    value that is not a mapping raises. *)

(** [v.keys()], as a set. *)
Definition keys (v : value) : result (gset string) :=
  match v with
  | VDict d => Return (dom d)
  | _ => Raise AttributeError
  end.

(** The [if]/[elif] chain of the error check on the outcomes of the two
    membership tests. *)
Definition error_chain (py_err ts_err : bool) : option (list difference) :=
  if py_err && negb ts_err then Some [PythonErrored]
  else if negb py_err && ts_err then Some [TypeScriptErrored]
  else if py_err && ts_err then None
  else Some [].

(** Whether [error in v] holds. *)
Definition has_error (v : value) : bool :=
  match Py.contains "error" v with
  | Return true => true
  | _ => false
  end.

Section ComparatorAny.

Variable set_iter : gset string → list string.

Definition compare_results_any (py_result ts_result : value)
    (ignore_keys : option (gset string)) : result (list difference) :=
  let ignore_keys := default default_ignore_keys ignore_keys in
  py_err ← Py.contains "error" py_result;
  ts_err ← Py.contains "error" ts_result;
  match error_chain py_err ts_err with
  | None => Return []
  | Some differences =>
      py_keys ← keys py_result;
      ts_keys ← keys ts_result;
      match py_result, ts_result with
      | VDict py, VDict ts =>
          Return (differences
                  ++ compare_key_sets (py_keys ∖ ignore_keys) (ts_keys ∖ ignore_keys)
                  ++ flat_map (compare_key py ts)
                       (set_iter ((py_keys ∖ ignore_keys) ∩ (ts_keys ∖ ignore_keys))))%list
      | _, _ => Raise AttributeError
      end
  end.

End ComparatorAny.

(** ** Test results and the summary *)

Record TestResult : Type := mkTestResult {
  tool_name : string;
  success : bool;
  python_result : option value;
  typescript_result : option value;
  error : option string;
  differences : list string
}.

(** [s * n]. *)
Fixpoint times (s : string) (n : nat) : string :=
  match n with
  | O => EmptyString
  | S n' => s ++ times s n'
  end.

(** What the [for r in results] loop of [print_summary] prints for one
    result. *)
Definition failed_test_lines (r : TestResult) : list string :=
  if success r then []
  else
    (["  - " +:+ tool_name r]
     ++ match error r with
        | Some e => if String.eqb e EmptyString then [] else ["    Error: " +:+ e]
        | None => []
        end
     ++ ((λ d, "    Diff: " +:+ d) <$> differences r))%list.

(** [print_summary]: what it returns and what it prints, one entry for
    each call of [print]. *)
Definition print_summary (results : list TestResult) : bool * list string :=
  let passed := length (List.filter success results) in
  let failed := (length results - passed)%nat in
  let head :=
    [nl +:+ times "=" 60; "EVALUATION SUMMARY"; times "=" 60;
     nl +:+ "Total tests: " +:+ pretty (length results);
     "Passed: " +:+ pretty passed;
     "Failed: " +:+ pretty failed] in
  let tail :=
    if bool_decide (0 < failed)%nat
    then (nl +:+ "Failed tests:") :: flat_map failed_test_lines results
    else [] in
  (bool_decide (failed = 0%nat), (head ++ tail)%list).

(** ** The orchestrator *)

(** The two sessions together with the module-level state they share. *)
Record world : Type := mkWorld {
  sessions : servers;
  w_message_id : N;
  w_sys_stderr : list string
}.

(** A method called on [ts_server], and on [py_server] once it is known
    to be there. *)
Definition W (A : Type) : Type := world → result A * world.

#[global] Instance W_ret : MRet W := λ A a w, (Return a, w).
#[global] Instance W_bind : MBind W := λ A B f m w,
  match m w with
  | (Return a, w') => f a w'
  | (Raise e, w') => (Raise e, w')
  end.

Definition lift_w {A} (r : result A) : W A := λ w, (r, w).

(** A step that cannot raise. *)
Definition total {A} (f : world → A * world) : W A := λ w,
  let '(a, w') := f w in (Return a, w').

Definition on_ts {A} (m : M A) : W A := λ w,
  let '(r, st) := m (mkState (ts_server (sessions w)) (w_message_id w)
                             (w_sys_stderr w)) in
  (r, mkWorld (mkServers (session st) (py_server (sessions w)))
              (_message_id st) (sys_stderr st)).

Definition on_py {A} (py : MCPServer) (m : M A) : W A := λ w,
  let '(r, st) := m (mkState py (w_message_id w) (w_sys_stderr w)) in
  (r, mkWorld (mkServers (ts_server (sessions w)) (Some (session st)))
              (_message_id st) (sys_stderr st)).

Definition SAFE_TOOLS : list (string * gmap string value) :=
  [("list_projects", ∅);
   ("list_repositories", {[ "limit" := VInt 3 ]})].

Definition SAFE_TOOLS_WITH_REPO : list (string * gmap string value) :=
  [("list_branches", {[ "limit" := VInt 5 ]});
   ("list_pull_requests", {[ "state" := VStr "OPEN"; "limit" := VInt 3 ]});
   ("list_pipelines", {[ "limit" := VInt 3 ]});
   ("list_commits", {[ "limit" := VInt 5 ]});
   ("list_tags", {[ "limit" := VInt 5 ]});
   ("list_webhooks", {[ "limit" := VInt 5 ]});
   ("list_environments", {[ "limit" := VInt 5 ]})].

(** [{"repo_slug": test_repo, **base_args}]. *)
Definition repo_args (test_repo : value) (base_args : gmap string value)
  : gmap string value :=
  base_args ∪ {[ "repo_slug" := test_repo ]}.

(** Whether a value can be an element of a [set]. *)
Definition hashable (v : value) : bool :=
  match v with
  | VList _ | VDict _ => false
  | _ => true
  end.

(** The elements of [{t["name"] for t in tools}], in the order they are
    produced.  Iterating a mapping or a [str] produces [str]s, and
    subscripting a [str] with a [str] raises. *)
Definition name_of_tool (t : value) : result value :=
  n ← Py.getitem t "name";
  if hashable n then Return n else Raise TypeError.

Fixpoint names_of_tools (tools : list value) : result (list value) :=
  match tools with
  | [] => Return []
  | t :: tools' =>
      n ← name_of_tool t;
      ns ← names_of_tools tools';
      Return (n :: ns)
  end.

Definition tool_names (tools : value) : result (list value) :=
  match tools with
  | VList l => names_of_tools l
  | VDict d => if decide (d = ∅) then Return [] else Raise TypeError
  | VStr s => if String.eqb s EmptyString then Return [] else Raise TypeError
  | VNone | VBool _ | VInt _ | VFloat _ => Raise TypeError
  end.

(** The repository to test with, from the answer to the preliminary
    [list_repositories] call. *)
Definition discovered_repo (test_repo ts_repos : value) : result value :=
  repos ← Py.get ts_repos "repositories" (VList []);
  if Py.truthy repos
  then r0 ← Py.first repos; Py.get r0 "name" VNone
  else Return test_repo.

(** The two test loops differ in how they print an error: the first
    subscripts the result, the second calls [get] on it. *)
Inductive loop : Type := FirstLoop | RepoLoop.

(** The [if "error" in r: print(...)] of the loop body: it prints, but
    first it evaluates. *)
Definition report_error (which : loop) (r : value) : result unit :=
  has_error ← Py.contains "error" r;
  if (has_error : bool) then
    match which with
    | FirstLoop => _ ← Py.getitem r "error"; Return ()
    | RepoLoop => _ ← Py.get r "error" r; Return ()
    end
  else Return ().

Section Orchestrator.

Variable json_loads : string → option value.
Variable json_dumps : value → string.
Variable popen : list string → gmap string string → Popen.
Variable os_environ : gmap string string.
Variable set_repr : gset string → string.
Variable set_iter : gset string → list string.

Variable py_str : value → string.

(** [str(e)] for a caught exception. *)
Variable exn_str : exn → string.

(** The [except Exception as e] clause of the loop body. *)
Definition failed_with (r : TestResult) (e : exn) : TestResult :=
  mkTestResult (tool_name r) false (python_result r) (typescript_result r)
               (Some (exn_str e)) (differences r).

(** One pass of a test loop: the result appended to [results], and the
    world afterwards.  Progress messages on [sys.stdout] are not part of
    the model. *)
Definition run_test (which : loop) (tool : string) (args : gmap string value)
    (w : world) : TestResult * world :=
  let result := mkTestResult tool true None None None [] in
  match on_ts (call_tool json_loads json_dumps tool (VDict args)) w with
  | (Raise e, w1) => (failed_with result e, w1)
  | (Return ts_result, w1) =>
      let result := mkTestResult tool true None (Some ts_result) None [] in
      match report_error which ts_result with
      | Raise e => (failed_with result e, w1)
      | Return _ =>
          match py_server (sessions w1) with
          | None => (result, w1)
          | Some py =>
              match on_py py (call_tool json_loads json_dumps tool (VDict args)) w1 with
              | (Raise e, w2) => (failed_with result e, w2)
              | (Return py_result, w2) =>
                  let result :=
                    mkTestResult tool true (Some py_result) (Some ts_result)
                                 None [] in
                  match report_error which py_result with
                  | Raise e => (failed_with result e, w2)
                  | Return _ =>
                      match compare_results_any set_iter py_result ts_result None with
                      | Raise e => (failed_with result e, w2)
                      | Return ds =>
                          (mkTestResult tool (bool_decide (ds = []))
                             (Some py_result) (Some ts_result) None
                             (message set_repr <$> ds), w2)
                      end
                  end
              end
          end
      end
  end.

(** A test loop over a plan. *)
Fixpoint run_plan (which : loop) (plan : list (string * gmap string value))
    (w : world) : list TestResult * world :=
  match plan with
  | [] => ([], w)
  | (tool, args) :: plan' =>
      let '(r, w1) := run_test which tool args w in
      let '(rs, w2) := run_plan which plan' w1 in
      (r :: rs, w2)
  end.

(** The tool-listing stage for one session: only what can raise. *)
Definition listing (tools : value) : result unit :=
  _ ← tool_names tools;
  _ ← Py.len tools;
  Return ().

(** [if py_server: ...] around a method of the Python session. *)
Definition if_py (m : MCPServer → W unit) : W unit := λ w,
  match py_server (sessions w) with
  | Some py => m py w
  | None => (Return (), w)
  end.

(** The [try] block of [run_evaluation]; [test_repo] is [None] or the
    slug given on the command line. *)
Definition run_evaluation_try (test_repo : value) : W (list TestResult) :=
  _ ← on_ts (start json_loads json_dumps popen os_environ);
  _ ← if_py (λ py, on_py py (start json_loads json_dumps popen os_environ));
  ts_tools ← on_ts (list_tools json_loads json_dumps py_str);
  _ ← lift_w (listing ts_tools);
  _ ← if_py (λ py,
         py_tools ← on_py py (list_tools json_loads json_dumps py_str);
         lift_w (listing py_tools));
  test_repo ← (if Py.truthy test_repo then mret test_repo
               else
                 ts_repos ← on_ts (call_tool json_loads json_dumps
                                     "list_repositories"
                                     (VDict {[ "limit" := VInt 1 ]}));
                 lift_w (discovered_repo test_repo ts_repos));
  results ← total (run_plan FirstLoop SAFE_TOOLS);
  if Py.truthy test_repo
  then
    more ← total (run_plan RepoLoop
                    (prod_map id (repo_args test_repo) <$> SAFE_TOOLS_WITH_REPO));
    mret (results ++ more)%list
  else mret results.

(** [test_repo: Optional[str]] as a value. *)
Definition repo_value (test_repo : option string) : value :=
  match test_repo with
  | Some slug => VStr slug
  | None => VNone
  end.

(** [run_evaluation], from the value of [_message_id] and the content of
    [sys.stderr] when it is called: what it returns or raises, and the
    world it leaves. *)
Definition run_evaluation (python_cmd typescript_cmd : list string)
    (env : gmap string string) (test_repo : option string) (ts_only : bool)
    (message_id : N) (printed : list string)
  : result (list TestResult) * world :=
  let ts := mkMCPServer "TypeScript" typescript_cmd env None in
  let py := if ts_only then None
            else Some (mkMCPServer "Python" python_cmd env None) in
  let '(r, w) := run_evaluation_try (repo_value test_repo)
                   (mkWorld (mkServers ts py) message_id printed) in
  match run_evaluation_finally (sessions w) with
  | (Return _, s) => (r, mkWorld s (w_message_id w) (w_sys_stderr w))
  | (Raise e, s) => (Raise e, mkWorld s (w_message_id w) (w_sys_stderr w))
  end.

End Orchestrator.

(** ** Vocabulary for the teardown of a run *)

(** Two states of a session with the same child, if any: the same
    signals were sent to it, it reacts to them in the same way, and its
    return code was collected in both or in neither. *)
Definition same_child (s s' : MCPServer) : Prop :=
  match process s, process s' with
  | None, None => True
  | Some q, Some q' =>
      signals q' = signals q ∧ exits_within q' = exits_within q
      ∧ reaped q' = reaped q
  | _, _ => False
  end.

Definition same_children (w w' : world) : Prop :=
  same_child (ts_server (sessions w)) (ts_server (sessions w'))
  ∧ match py_server (sessions w), py_server (sessions w') with
    | None, None => True
    | Some py, Some py' => same_child py py'
    | _, _ => False
    end.

(** A step of the orchestrator that leaves the children as they are,
    whether it returns or raises. *)
Definition keeps_children {A} (m : W A) : Prop :=
  ∀ w, same_children w (m w).2.

(** A session whose child is [c], with the signals sent to [c] so far
    and no other. *)
Definition child_of (c : Popen) (s : MCPServer) : Prop :=
  ∃ q, process s = Some q ∧ signals q = signals c
       ∧ exits_within q = exits_within c ∧ reaped q = reaped c.

(** A tool whose [name] can be an element of the set of tool names: a
    mapping with a [name] that is hashable. *)
Definition named (t : value) : bool :=
  match t with
  | VDict d =>
      match d !! "name" with
      | Some n => hashable n
      | None => false
      end
  | _ => false
  end.

(** ** Further sample inputs *)

(** Results whose [count] is a number on one side and a string on the
    other, with a timestamp on one side only. *)
Definition counted : gmap string value :=
  {[ "count" := VInt 5; "updated" := VStr "2024-01-01" ]}.
Definition counted_as_text : gmap string value :=
  {[ "count" := VStr "5" ]}.

(** A response whose [result] is [null], and a decoder that knows it
    besides the other sample lines. *)
Definition null_result_line : string :=
  "{" ++ quoted "id" ++ ": 1, " ++ quoted "result" ++ ": null}".
Definition null_result_response : gmap string value :=
  {[ "id" := VInt 1; "result" := VNone ]}.

Definition more_loads (s : string) : option value :=
  if String.eqb s (null_result_line ++ nl) then Some (VDict null_result_response)
  else sample_loads s.

(** Responses that are well-formed JSON-RPC and that the adapter cannot
    unwrap: the first content block is a number, or its [text] is one. *)
Definition bare_block_line : string :=
  "{" ++ quoted "id" ++ ": 1, " ++ quoted "result" ++ ": {"
      ++ quoted "content" ++ ": [5]}}".
Definition bare_block_response : gmap string value :=
  {[ "id" := VInt 1; "result" := VDict {[ "content" := VList [VInt 5] ]} ]}.

Definition numeric_text_line : string :=
  "{" ++ quoted "id" ++ ": 1, " ++ quoted "result" ++ ": {"
      ++ quoted "content" ++ ": [{" ++ quoted "text" ++ ": 5}]}}".
Definition numeric_text_response : gmap string value :=
  {[ "id" := VInt 1;
     "result" := VDict {[ "content" := VList [VDict {[ "text" := VInt 5 ]}] ]} ]}.

(** A listing with one tool, which has no name. *)
Definition nameless_tool_line : string :=
  "{" ++ quoted "id" ++ ": 2, " ++ quoted "result" ++ ": {"
      ++ quoted "tools" ++ ": [{}]}}".
Definition nameless_tool_response : gmap string value :=
  {[ "id" := VInt 2; "result" := VDict {[ "tools" := VList [VDict ∅] ]} ]}.

Definition odd_loads (s : string) : option value :=
  if String.eqb s (bare_block_line ++ nl) then Some (VDict bare_block_response)
  else if String.eqb s (numeric_text_line ++ nl)
       then Some (VDict numeric_text_response)
  else if String.eqb s (nameless_tool_line ++ nl)
       then Some (VDict nameless_tool_response)
  else more_loads s.

(** A child that has written [lines] whatever it is started with. *)
Definition sample_popen (lines : list string)
  : list string → gmap string string → Popen :=
  λ _ _, child lines true.

Definition sample_environ : gmap string string :=
  {[ "PATH" := "/usr/bin"; "BITBUCKET_WORKSPACE" := "inherited" ]}.

(** [str(e)] on the exceptions of the samples: the message of a
    [RuntimeError]. *)
Definition sample_exn_str (e : exn) : string :=
  match e with
  | RuntimeError msg => msg
  | TypeError => "TypeError"
  | AttributeError => "AttributeError"
  | KeyError => "KeyError"
  | IndexError => "IndexError"
  | TimeoutExpired => "TimeoutExpired"
  end.

Definition sample_set_repr (ks : gset string) : string := "{...}".

(** A session that was created and not started. *)
Definition unstarted : state :=
  mkState (mkMCPServer "Python" ["uv"; "run"; "python"] ∅ None) 7 [].

(** Worlds for one pass of a test loop: TypeScript alone, both servers
    answering, and a TypeScript server that only wrote noise. *)
Definition alone : world :=
  mkWorld (mkServers (started "TypeScript" [tools_line] true) None) 0 [].
Definition both : world :=
  mkWorld (mkServers (started "TypeScript" [tools_line] true)
                     (Some (started "Python" [tools_line] true))) 0 [].
Definition silent : world :=
  mkWorld (mkServers (started "TypeScript" [noise_line] true)
                     (Some (started "Python" [tools_line] true))) 0 [].


(** A TypeScript-only run against a server that answers the handshake
    and then lists a tool without a name. *)
Definition nameless_run : result (list TestResult) * world :=
  run_evaluation odd_loads sample_dumps
    (sample_popen [tools_line; nameless_tool_line; tools_line]) sample_environ
    sample_set_repr elements sample_str sample_exn_str
    ["uv"; "run"] ["node"; "dist/index.js"] ∅ (Some "repo") true 0 [].

(** The result object of the sample responses. *)
Definition no_tools : gmap string value := {[ "tools" := VList [] ]}.


(** ** Properties of the comparator *)

Section ComparatorFacts.

Variable set_iter : gset string → list string.

Lemma compare_key_refl (x : gmap string value) (key : string) :
  compare_key x x key = [].
Proof.
  unfold compare_key. destruct (x !! key) as [v|]; [|done].
  destruct v; simpl; try case_decide; congruence.
Qed.

Lemma compare_key_sets_refl (X : gset string) : compare_key_sets X X = [].
Proof. unfold compare_key_sets. case_decide; [congruence|done]. Qed.

Lemma flat_map_all_nil {A B} (f : A → list B) (l : list A) :
  (∀ x, f x = []) → flat_map f l = [].
Proof. intros Hf. induction l as [|x l IH]; simpl; [done|]. rewrite Hf, IH. done. Qed.

(** C9. [compare_results] is reflexive: comparing a mapping with itself
    gives the empty list, for every ignore set (given or defaulted) and
    every iteration order. *)
Theorem compare_results_reflexive (x : gmap string value)
    (ignore_keys : option (gset string)) :
  compare_results set_iter x x ignore_keys = [].
Proof.
  unfold compare_results, check_errors.
  destruct (bool_decide ("error" ∈ dom x)); simpl; [done|].
  unfold compare_fields. rewrite compare_key_sets_refl. simpl.
  apply flat_map_all_nil, compare_key_refl.
Qed.

(** C6. When both mappings contain the key [error], [compare_results]
    returns the empty list, whatever the two error values (and all other
    fields) are. *)
Theorem compare_results_both_errored (py_result ts_result : gmap string value)
    (ignore_keys : option (gset string)) :
  "error" ∈ dom py_result → "error" ∈ dom ts_result →
  compare_results set_iter py_result ts_result ignore_keys = [].
Proof.
  intros Hpy Hts. unfold compare_results, check_errors.
  by rewrite !bool_decide_eq_true_2.
Qed.

Lemma compare_fields_no_side (py_result ts_result : gmap string value)
    (ignore_keys : gset string) (d : difference) :
  d ∈ compare_fields set_iter py_result ts_result ignore_keys →
  d ≠ PythonErrored ∧ d ≠ TypeScriptErrored.
Proof.
  unfold compare_fields. rewrite elem_of_app. intros [Hd|Hd].
  - unfold compare_key_sets in Hd. case_decide; [|by apply elem_of_nil in Hd].
    rewrite elem_of_app in Hd.
    destruct Hd as [Hd|Hd]; case_decide;
      try (by apply elem_of_nil in Hd);
      apply list_elem_of_singleton in Hd; by subst d.
  - apply list_elem_of_In, in_flat_map in Hd. destruct Hd as (k & _ & Hd).
    apply list_elem_of_In in Hd. unfold compare_key in Hd.
    destruct (py_result !! k) as [u|]; [|by apply elem_of_nil in Hd].
    destruct (ts_result !! k) as [v|]; [|by apply elem_of_nil in Hd].
    destruct u, v; case_decide;
      try (by apply elem_of_nil in Hd);
      apply list_elem_of_singleton in Hd; by subst d.
Qed.

(** C2 (amended). When exactly one side contains [error], the list
    starts with the difference naming that side, and that difference
    occurs nowhere else; the key-set and per-key comparisons are still
    performed on all fields and their differences follow it.  Unless
    [error] is an ignored key, these include a key-set difference listing
    [error], so the list then has at least two entries. *)
Theorem compare_results_one_sided_error (py_result ts_result : gmap string value)
    (ignore_keys : option (gset string)) :
  exactly_one_errored py_result ts_result →
  (compare_results set_iter py_result ts_result ignore_keys
    = errored_side py_result
      :: compare_fields set_iter py_result ts_result
           (default default_ignore_keys ignore_keys))
  ∧ (errored_side py_result
      ∉ compare_fields set_iter py_result ts_result
          (default default_ignore_keys ignore_keys))
  ∧ ("error" ∉ default default_ignore_keys ignore_keys →
     ∃ d, d ∈ compare_fields set_iter py_result ts_result
                (default default_ignore_keys ignore_keys)
          ∧ about "error" d = true).
Proof.
  intros Hone. set (ign := default default_ignore_keys ignore_keys).
  split; [|split].
  - unfold compare_results, check_errors, errored_side. fold ign.
    destruct Hone as [[Hpy Hts]|[Hpy Hts]].
    + by rewrite (bool_decide_eq_true_2 _ Hpy), (bool_decide_eq_false_2 _ Hts).
    + by rewrite (bool_decide_eq_false_2 _ Hpy), (bool_decide_eq_true_2 _ Hts).
  - intros Hin. apply compare_fields_no_side in Hin as [H1 H2].
    unfold errored_side in *. by case_bool_decide.
  - intros Hign. unfold compare_fields, compare_key_sets.
    destruct Hone as [[Hpy Hts]|[Hpy Hts]].
    + exists (KeysMissingInTypeScript ((dom py_result ∖ ign) ∖ (dom ts_result ∖ ign))).
      split; [|simpl; apply bool_decide_eq_true_2; set_solver].
      assert (dom py_result ∖ ign ≠ dom ts_result ∖ ign) as Hne by set_solver.
      assert ((dom py_result ∖ ign) ∖ (dom ts_result ∖ ign) ≠ ∅) as Hmiss
        by set_solver.
      rewrite (decide_True _ _ Hne), (decide_True _ _ Hmiss).
      simpl. apply list_elem_of_here.
    + exists (KeysMissingInPython ((dom ts_result ∖ ign) ∖ (dom py_result ∖ ign))).
      split; [|simpl; apply bool_decide_eq_true_2; set_solver].
      assert (dom py_result ∖ ign ≠ dom ts_result ∖ ign) as Hne by set_solver.
      assert ((dom ts_result ∖ ign) ∖ (dom py_result ∖ ign) ≠ ∅) as Hmiss
        by set_solver.
      rewrite (decide_True _ _ Hne), (decide_True _ _ Hmiss).
      rewrite !elem_of_app. left. right. apply list_elem_of_here.
Qed.

Lemma filter_about_check_errors (py_result ts_result : gmap string value)
    (ds : list difference) (key : string) :
  check_errors py_result ts_result = Some ds →
  List.filter (about key) ds = [].
Proof.
  unfold check_errors.
  destruct (bool_decide ("error" ∈ dom py_result)),
           (bool_decide ("error" ∈ dom ts_result)); simpl;
    intros [= <-]; reflexivity.
Qed.

Lemma filter_about_key_sets (X Y : gset string) (key : string) :
  key ∈ X → key ∈ Y → List.filter (about key) (compare_key_sets X Y) = [].
Proof.
  intros HX HY. unfold compare_key_sets. case_decide; [|done].
  assert (key ∉ X ∖ Y) as H1 by set_solver.
  assert (key ∉ Y ∖ X) as H2 by set_solver.
  repeat case_decide; simpl;
    rewrite ?(bool_decide_eq_false_2 _ H1), ?(bool_decide_eq_false_2 _ H2);
    reflexivity.
Qed.

Lemma filter_about_other_key (py_result ts_result : gmap string value)
    (k key : string) :
  k ≠ key → List.filter (about key) (compare_key py_result ts_result k) = [].
Proof.
  intros Hne. apply String.eqb_neq in Hne. unfold compare_key.
  destruct (py_result !! k) as [u|]; [|done].
  destruct (ts_result !! k) as [v|]; [|done].
  destruct u, v; simpl; try case_decide; simpl; rewrite ?Hne; reflexivity.
Qed.

Lemma filter_about_unvisited (f : string → list difference)
    (l : list string) (key : string) :
  (∀ k, k ≠ key → List.filter (about key) (f k) = []) →
  key ∉ l → List.filter (about key) (flat_map f l) = [].
Proof.
  intros Hf. induction l as [|k l IH]; simpl; [done|].
  rewrite not_elem_of_cons. intros [Hk Hl].
  rewrite List.filter_app, (Hf k) by done. simpl. by apply IH.
Qed.

Lemma filter_about_visited_once (f : string → list difference)
    (l : list string) (key : string) :
  (∀ k, k ≠ key → List.filter (about key) (f k) = []) →
  NoDup l → key ∈ l →
  List.filter (about key) (flat_map f l) = List.filter (about key) (f key).
Proof.
  intros Hf. induction l as [|k l IH]; simpl.
  - intros _ Hin. by apply elem_of_nil in Hin.
  - rewrite NoDup_cons, elem_of_cons. intros [Hk Hnd] Hin.
    rewrite List.filter_app. destruct (decide (k = key)) as [->|Hne].
    + rewrite (filter_about_unvisited f l key Hf Hk).
      by rewrite app_nil_r.
    + rewrite (Hf k Hne). simpl. apply IH; [done|]. by destruct Hin.
Qed.

(** C8 (amended). For a key outside the ignore set whose value is a
    sequence on both sides, and unless both sides contain [error] (the
    comparison then returns the empty list at once): when the two
    sequences have the same length no difference in the result speaks of
    that key, whatever the elements are; when the lengths differ exactly
    one difference speaks of it, and it carries both lengths. *)
Theorem compare_results_sequences (py_result ts_result : gmap string value)
    (ignore_keys : option (gset string)) (key : string) (a b : list value) :
  set_iter_spec set_iter →
  py_result !! key = Some (VList a) →
  ts_result !! key = Some (VList b) →
  key ∉ default default_ignore_keys ignore_keys →
  ¬ (("error" ∈ dom py_result) ∧ ("error" ∈ dom ts_result)) →
  (length a = length b →
   List.filter (about key)
     (compare_results set_iter py_result ts_result ignore_keys) = [])
  ∧ (length a ≠ length b →
     List.filter (about key)
       (compare_results set_iter py_result ts_result ignore_keys)
     = [ArrayLengthDiffers key (length a) (length b)]).
Proof.
  intros Hiter Hpy Hts Hign Hboth.
  set (ign := default default_ignore_keys ignore_keys) in *.
  assert (key ∈ dom py_result ∖ ign) as Hkpy
    by (apply elem_of_difference; split; [by apply elem_of_dom|done]).
  assert (key ∈ dom ts_result ∖ ign) as Hkts
    by (apply elem_of_difference; split; [by apply elem_of_dom|done]).
  assert (List.filter (about key)
            (compare_results set_iter py_result ts_result ignore_keys)
          = List.filter (about key) (compare_key py_result ts_result key))
    as ->.
  { unfold compare_results. fold ign.
    destruct (check_errors py_result ts_result) as [ds|] eqn:Hchk.
    - unfold compare_fields.
      rewrite !List.filter_app, (filter_about_check_errors _ _ _ _ Hchk),
        (filter_about_key_sets _ _ _ Hkpy Hkts). simpl.
      apply filter_about_visited_once.
      + intros k Hk. by apply filter_about_other_key.
      + rewrite (Hiter _). apply NoDup_elements.
      + rewrite (Hiter _). apply elem_of_elements. set_solver.
    - exfalso. apply Hboth. unfold check_errors in Hchk.
      destruct (bool_decide ("error" ∈ dom py_result)) eqn:E1,
               (bool_decide ("error" ∈ dom ts_result)) eqn:E2;
        simpl in Hchk; try discriminate.
      split; [by apply bool_decide_eq_true in E1|by apply bool_decide_eq_true in E2]. }
  unfold compare_key. rewrite Hpy, Hts.
  split; intros Hlen; case_decide; try done.
  simpl. by rewrite String.eqb_refl.
Qed.

End ComparatorFacts.

(** ** Properties of the transport client *)

Section TransportFacts.

Variable json_loads : string → option value.
Variable json_dumps : value → string.

Lemma on_line_respond (self_name line : string) (v : value) :
  on_line json_loads self_name line = Respond v →
  json_loads line = Some v ∧ Py.contains "id" v = Return true.
Proof.
  unfold on_line. destruct (json_loads line) as [w|]; [|done].
  destruct (Py.contains "id" w) as [[]|] eqn:Hid; try done.
  by intros [= ->].
Qed.

Lemma on_line_carries_id (self_name line : string) (d : gmap string value) :
  json_loads line = Some (VDict d) → "id" ∈ dom d →
  on_line json_loads self_name line = Respond (VDict d).
Proof.
  intros Hd Hid. unfold on_line. rewrite Hd. simpl.
  by rewrite (bool_decide_eq_true_2 _ Hid).
Qed.

Lemma on_line_passes (self_name line : string) (v : value) :
  json_loads line = Some v → Py.contains "id" v = Return true →
  on_line json_loads self_name line = Respond v.
Proof. intros Hv Hid. unfold on_line. by rewrite Hv, Hid. Qed.

Lemma noise_is_skipped (l : string) :
  malformed json_loads l ∨ is_notification json_loads l →
  skipped json_loads l.
Proof.
  intros [Hl|(d & Hd & Hid)]; [by left|right].
  exists (VDict d). split; [done|]. simpl.
  by rewrite (bool_decide_eq_false_2 _ Hid).
Qed.

Lemma on_line_skipped (self_name l : string) :
  skipped json_loads l →
  on_line json_loads self_name (l ++ nl)
  = Skip (invalid_json_log json_loads self_name [l]).
Proof.
  unfold on_line, invalid_json_log, skipped. simpl.
  intros [->|(v & -> & ->)]; reflexivity.
Qed.

(** Whatever the loop returns passed the test [id in response]. *)
Lemma read_loop_returns_id (self_name : string) (lines : list string) :
  ∀ (p q : Popen) (v : value) (printed : list string),
    read_loop json_loads self_name lines p = (Return v, q, printed) →
    Py.contains "id" v = Return true.
Proof.
  induction lines as [|l lines IH]; intros p q v printed; simpl.
  - destruct (stdout_rest p) as [|c rest] eqn:Hrest; [done|].
    destruct (on_line _ _ _) eqn:Hline; try done.
    intros [= -> _ _]. by apply on_line_respond in Hline as [_ ?].
  - destruct (on_line _ _ _) eqn:Hline.
    + intros [= -> _ _]. by apply on_line_respond in Hline as [_ ?].
    + done.
    + destruct (read_loop _ _ _ _) as [[r q'] more] eqn:Hrec.
      intros [= -> _ _]. by eapply IH.
Qed.

(** The loop passes over the lines that fail the test and returns what
    the first line that passes it decodes to. *)
Lemma read_loop_skips (self_name : string) (skip : list string)
    (line : string) (rest : list string) (v : value) :
  on_line json_loads self_name (line ++ nl) = Respond v →
  Forall (skipped json_loads) skip →
  ∀ p : Popen,
    read_loop json_loads self_name (skip ++ line :: rest) p
    = (Return v, set_stdout p rest (stdout_rest p),
       invalid_json_log json_loads self_name skip).
Proof.
  intros Hline. induction 1 as [|l skip Hl Hskip IH]; intros p; simpl.
  - by rewrite Hline.
  - rewrite (on_line_skipped self_name l Hl), IH. simpl.
    by rewrite app_nil_r.
Qed.

(** The outcome of the loop and what it prints depend on the output and
    error streams only, not on what was written to the child. *)
Lemma read_loop_stdin (self_name : string) (lines : list string) :
  ∀ p p' : Popen,
    stdout_rest p = stdout_rest p' → stderr p = stderr p' →
    (read_loop json_loads self_name lines p).1.1
    = (read_loop json_loads self_name lines p').1.1.
Proof.
  induction lines as [|l lines IH]; intros p p' Hrest Herr; simpl.
  - rewrite <- Hrest. destruct (stdout_rest p) as [|c rest].
    + unfold closed_unexpectedly, read_stderr. simpl. by rewrite Herr.
    + destruct (on_line _ _ _); simpl; try done.
      by rewrite Herr.
  - destruct (on_line _ _ _); simpl; try done.
    specialize (IH (set_stdout p lines (stdout_rest p))
                   (set_stdout p' lines (stdout_rest p')) Hrest Herr).
    destruct (read_loop _ _ _ (set_stdout p _ _)) as [[r q] more].
    by destruct (read_loop _ _ _ (set_stdout p' _ _)) as [[r' q'] more'].
Qed.

Lemma send_request_returns (st st' : state) (method : string)
    (params v : value) :
  _send_request json_loads json_dumps method params st = (Return v, st') →
  Py.contains "id" v = Return true.
Proof.
  unfold _send_request.
  destruct (process (session st)) as [p|]; [|done]. simpl.
  destruct (read_loop _ _ _ _) as [[r q] printed] eqn:Hloop.
  intros [= -> _]. by eapply read_loop_returns_id.
Qed.

(** C1 (amended). For every input stream and every requested id, what
    [_send_request] returns has passed the test [id in response] (a
    mapping it returns has the key [id]); it is what the first line
    passing that test decodes to, whatever the value of its [id]; and the
    outcome is the same for every value of the request counter.  The [id]
    of a response is never compared with the id of the request just sent,
    so a response carrying another id is returned like any other and no
    protocol error is raised for it. *)
Theorem send_request_checks_no_id (st : state) (method : string)
    (params : value) :
  (∀ (v : value) (st' : state),
     _send_request json_loads json_dumps method params st = (Return v, st') →
     Py.contains "id" v = Return true)
  ∧ (∀ (p : Popen) (skip : list string) (line : string) (rest : list string)
       (v : value),
       process (session st) = Some p →
       stdout p = (skip ++ line :: rest)%list →
       Forall (skipped json_loads) skip →
       json_loads (line ++ nl) = Some v →
       Py.contains "id" v = Return true →
       (_send_request json_loads json_dumps method params st).1 = Return v)
  ∧ (∀ n : N,
       (_send_request json_loads json_dumps method params
          (with_message_id st n)).1
       = (_send_request json_loads json_dumps method params st).1).
Proof.
  split; [|split].
  - intros v st'. apply send_request_returns.
  - intros p skip line rest v Hp Hout Hskip Hv Hid.
    unfold _send_request. rewrite Hp. simpl. rewrite Hout.
    by rewrite (read_loop_skips (name (session st)) skip line rest v
                  (on_line_passes _ _ _ Hv Hid) Hskip).
  - intros n. unfold _send_request, with_message_id. simpl.
    destruct (process (session st)) as [p|]; [|done]. simpl.
    set (p1 := write_stdin p _). set (p2 := write_stdin p _).
    pose proof (read_loop_stdin (name (session st)) (stdout p) p1 p2
                  eq_refl eq_refl) as Hsame.
    destruct (read_loop json_loads (name (session st)) (stdout p) p1)
      as [[r1 q1] pr1].
    destruct (read_loop json_loads (name (session st)) (stdout p) p2)
      as [[r2 q2] pr2].
    exact Hsame.
Qed.

(** C5. When lines that are not valid JSON and objects without [id]
    precede a line that decodes to an object with [id], [_send_request]
    skips each of them without failing and returns that object; it has
    read the stream up to and including that line, and has printed one
    message to [sys.stderr] for each malformed line and nothing for the
    notifications.  A mapping without [id] is never what [_send_request]
    returns. *)
Theorem send_request_skips_noise (st : state) (p : Popen) (method : string)
    (params : value) (skip : list string) (line : string)
    (rest : list string) (d : gmap string value) :
  process (session st) = Some p →
  stdout p = (skip ++ line :: rest)%list →
  Forall (λ l, malformed json_loads l ∨ is_notification json_loads l) skip →
  json_loads (line ++ nl) = Some (VDict d) →
  "id" ∈ dom d →
  (∃ st' : state,
     _send_request json_loads json_dumps method params st
       = (Return (VDict d), st')
     ∧ stdout <$> process (session st') = Some rest
     ∧ sys_stderr st'
       = (sys_stderr st
          ++ invalid_json_log json_loads (name (session st)) skip)%list)
  ∧ (∀ (st0 st1 : state) (m : string) (ps : value) (n : gmap string value),
       _send_request json_loads json_dumps m ps st0 = (Return (VDict n), st1) →
       "id" ∈ dom n).
Proof.
  intros Hp Hout Hskip Hline Hid. split.
  - unfold _send_request. rewrite Hp. simpl. rewrite Hout.
    rewrite (read_loop_skips (name (session st)) skip line rest (VDict d));
      [|by apply on_line_carries_id|by eapply Forall_impl, noise_is_skipped].
    eexists. split; [reflexivity|]. by simpl.
  - intros st0 st1 m ps n Hret.
    pose proof (send_request_returns st0 st1 m ps (VDict n) Hret) as Hn.
    simpl in Hn. injection Hn as Hn. by apply bool_decide_eq_true in Hn.
Qed.

End TransportFacts.

(** ** Properties of the tool adapter *)

Section AdapterFacts.

Variable json_loads : string → option value.
Variable json_dumps : value → string.
Variable py_str : value → string.

Lemma list_tools_after (st st' : state) (response : value) :
  _send_request json_loads json_dumps "tools/list" (VDict ∅) st
    = (Return response, st') →
  list_tools json_loads json_dumps py_str st = (tools_of py_str response, st').
Proof. intros H. unfold list_tools, mbind, M_bind. by rewrite H. Qed.

Lemma call_tool_after (st st' : state) (tool_name : string)
    (arguments response : value) :
  _send_request json_loads json_dumps "tools/call"
    (call_params tool_name arguments) st = (Return response, st') →
  call_tool json_loads json_dumps tool_name arguments st
    = (unwrap json_loads response, st').
Proof. intros H. unfold call_tool, mbind, M_bind. by rewrite H. Qed.

Lemma has_key (d : gmap string value) (key : string) (v : value) :
  d !! key = Some v → bool_decide (key ∈ dom d) = true.
Proof. intros H. apply bool_decide_eq_true_2, elem_of_dom. by exists v. Qed.

Lemma lacks_key (d : gmap string value) (key : string) :
  d !! key = None → bool_decide (key ∈ dom d) = false.
Proof. intros H. by apply bool_decide_eq_false_2, not_elem_of_dom. Qed.

(** C7 (amended). For a [tools/list] response (an object), [list_tools]
    raises exactly when the response has the key [error], or has a
    [result] that is not an object: with [error] it raises the
    [RuntimeError] that carries the error, and on such a [result] the
    second [get] raises [AttributeError].  Otherwise it returns
    [result.tools], and the empty list when [result] or [tools] is
    absent. *)
Theorem list_tools_fails_iff_error (st st' : state)
    (response : gmap string value) :
  _send_request json_loads json_dumps "tools/list" (VDict ∅) st
    = (Return (VDict response), st') →
  (raises (list_tools json_loads json_dumps py_str st).1
   ↔ "error" ∈ dom response
     ∨ ∃ r, response !! "result" = Some r ∧ type_of r ≠ TDict)
  ∧ (∀ e, response !! "error" = Some e →
       list_tools json_loads json_dumps py_str st
       = (Raise (RuntimeError ("Error listing tools: " ++ py_str e)), st'))
  ∧ ("error" ∉ dom response →
     (∀ r, response !! "result" = Some r → type_of r = TDict) →
     list_tools json_loads json_dumps py_str st
     = (Return (default (VList []) (response !! "result" ≫= field "tools")),
        st'))
  ∧ ("error" ∉ dom response →
     ∀ r, response !! "result" = Some r → type_of r ≠ TDict →
       list_tools json_loads json_dumps py_str st = (Raise AttributeError, st')).
Proof.
  intros Hsend. rewrite (list_tools_after _ _ _ Hsend).
  unfold tools_of. simpl.
  destruct (response !! "error") as [e|] eqn:He.
  - rewrite (has_key _ _ _ He). simpl.
    assert ("error" ∈ dom response) as Hin by (apply elem_of_dom; by exists e).
    split; [split; [by left|done]|].
    split; [by intros ? [= <-]|]. split; intros Hno; by exfalso.
  - rewrite (lacks_key _ _ He). simpl.
    assert ("error" ∉ dom response) as Hno by by apply not_elem_of_dom.
    split; [|split; [done|]].
    + destruct (response !! "result") as [r|] eqn:Hr; simpl.
      * split.
        -- intros Hraise. right. exists r. split; [done|].
           intros Hty. by destruct r.
        -- intros [Hin|(r' & [= <-] & Hty)]; [done|]. by destruct r.
      * split; [done|]. by intros [Hin|(r' & [=] & _)].
    + split.
      * intros _ Hresult.
        destruct (response !! "result") as [r|] eqn:Hr; simpl; [|done].
        specialize (Hresult r eq_refl). by destruct r.
      * intros _ r Hr Hty. rewrite Hr. simpl. by destruct r.
Qed.

(** C4 (amended). For a [tools/call] response (an object), [call_tool]
    returns, as an ordinary result: the wrapper around the [error] value
    when the response has one; otherwise, for a [result] that is an
    object (or absent), when [result.content] is a sequence whose first
    element is an object with a string as its [text], the decoding of
    that text, or the wrapper around the raw text when it does not
    decode; and [result] itself when [content] is absent or empty (an
    empty sequence, or any other value that tests false).  It raises
    instead of returning when [result] is not an object, when the first
    element of [content] is not an object, and when its [text] is not a
    string. *)
Theorem call_tool_shapes (st st' : state) (tool_name : string)
    (arguments : value) (response : gmap string value) :
  _send_request json_loads json_dumps "tools/call"
    (call_params tool_name arguments) st = (Return (VDict response), st') →
  (∀ e, response !! "error" = Some e →
     call_tool json_loads json_dumps tool_name arguments st
     = (Return (VDict {[ "error" := e ]}), st'))
  ∧ (∀ (result block : gmap string value) (more : list value) (text : string),
       response !! "error" = None →
       default (VDict ∅) (response !! "result") = VDict result →
       result !! "content" = Some (VList (VDict block :: more)) →
       block !! "text" = Some (VStr text) →
       call_tool json_loads json_dumps tool_name arguments st
       = (Return (match json_loads text with
                  | Some decoded => decoded
                  | None => VDict {[ "raw" := VStr text ]}
                  end), st'))
  ∧ (∀ result : gmap string value,
       response !! "error" = None →
       default (VDict ∅) (response !! "result") = VDict result →
       result !! "content" = None
       ∨ result !! "content" = Some (VList [])
       ∨ (∃ c, result !! "content" = Some c ∧ Py.truthy c = false) →
       call_tool json_loads json_dumps tool_name arguments st
       = (Return (VDict result), st'))
  ∧ (∀ r : value,
       response !! "error" = None →
       response !! "result" = Some r → type_of r ≠ TDict →
       call_tool json_loads json_dumps tool_name arguments st
       = (Raise AttributeError, st'))
  ∧ (∀ (result : gmap string value) (first : value) (more : list value),
       response !! "error" = None →
       default (VDict ∅) (response !! "result") = VDict result →
       result !! "content" = Some (VList (first :: more)) →
       type_of first ≠ TDict →
       call_tool json_loads json_dumps tool_name arguments st
       = (Raise AttributeError, st'))
  ∧ (∀ (result block : gmap string value) (more : list value) (text : value),
       response !! "error" = None →
       default (VDict ∅) (response !! "result") = VDict result →
       result !! "content" = Some (VList (VDict block :: more)) →
       block !! "text" = Some text → type_of text ≠ TStr →
       call_tool json_loads json_dumps tool_name arguments st
       = (Raise TypeError, st')).
Proof.
  intros Hsend. rewrite (call_tool_after _ _ _ _ _ Hsend).
  unfold unwrap. simpl. split; [|split; [|split; [|split; [|split]]]].
  - intros e He. by rewrite (has_key _ _ _ He), He.
  - intros result block more text He Hres Hcontent Htext.
    rewrite (lacks_key _ _ He), Hres. simpl. rewrite Hcontent. simpl.
    rewrite Htext. simpl.
    by destruct (json_loads text).
  - intros result He Hres Hcontent.
    rewrite (lacks_key _ _ He), Hres. simpl.
    destruct Hcontent as [-> | [-> | (c & -> & Hc)]]; simpl; try done.
    by rewrite Hc.
  - intros r He Hr Hty. rewrite (lacks_key _ _ He), Hr. simpl. by destruct r.
  - intros result first more He Hres Hcontent Hty.
    rewrite (lacks_key _ _ He), Hres. simpl. rewrite Hcontent. simpl.
    by destruct first.
  - intros result block more text He Hres Hcontent Htext Hty.
    rewrite (lacks_key _ _ He), Hres. simpl. rewrite Hcontent. simpl.
    rewrite Htext. simpl. by destruct text.
Qed.

(** C10. When the response has no [error] and [result.content] is a
    non-empty sequence whose first block has no [text], [call_tool]
    decodes the default text of an empty object and returns the empty
    mapping: neither the raw-text wrapper nor [result]. *)
Theorem call_tool_block_without_text (st st' : state) (tool_name : string)
    (arguments : value) (response result block : gmap string value)
    (more : list value) :
  json_loads "{}" = Some (VDict ∅) →
  _send_request json_loads json_dumps "tools/call"
    (call_params tool_name arguments) st = (Return (VDict response), st') →
  response !! "error" = None →
  default (VDict ∅) (response !! "result") = VDict result →
  result !! "content" = Some (VList (VDict block :: more)) →
  block !! "text" = None →
  call_tool json_loads json_dumps tool_name arguments st
  = (Return (VDict ∅), st').
Proof.
  intros Hempty Hsend He Hres Hcontent Htext.
  rewrite (call_tool_after _ _ _ _ _ Hsend). unfold unwrap. simpl.
  rewrite (lacks_key _ _ He), Hres. simpl. rewrite Hcontent. simpl.
    rewrite Htext. simpl.
  by rewrite Hempty.
Qed.

End AdapterFacts.

(** ** Properties of the teardown *)

(** [stop] on a started session, by what becomes of the child. *)
Lemma stop_started (self : MCPServer) (p : Popen) :
  process self = Some p →
  stop self
  = if poll p then (Return (), set_process self (set_reaped p))
    else if exits_within p 5
         then (Return (), set_process self (set_reaped (deliver p SIGTERM)))
         else (Raise TimeoutExpired, set_process self (deliver p SIGTERM)).
Proof.
  intros Hp. unfold stop, wait, terminate. rewrite Hp.
  destruct (poll p) eqn:Hpoll.
  - replace (poll (set_reaped p)) with true by done. done.
  - change (poll (deliver p SIGTERM)) with (poll p). rewrite Hpoll. simpl.
    by destruct (exits_within p 5).
Qed.

Lemma stop_signals (self : MCPServer) (p : Popen) :
  process self = Some p →
  signals <$> process (stop self).2
  = Some (signals p ++ if poll p then [] else [SIGTERM])%list.
Proof.
  intros Hp. rewrite (stop_started self p Hp).
  destruct (poll p); simpl; [by rewrite app_nil_r|].
  by destruct (exits_within p 5).
Qed.

Lemma stop_reaped (self : MCPServer) (p : Popen) :
  process self = Some p →
  reaped <$> process (stop self).2 = Some (poll p || exits_within p 5).
Proof.
  intros Hp. rewrite (stop_started self p Hp).
  destruct (poll p) eqn:Hpoll; simpl; [done|].
  destruct (exits_within p 5); simpl; [done|].
  unfold poll in Hpoll. by destruct (reaped p).
Qed.

Lemma stop_in_time (self : MCPServer) (p : Popen) :
  process self = Some p → poll p || exits_within p 5 = true →
  (stop self).1 = Return ().
Proof.
  intros Hp Hexit. rewrite (stop_started self p Hp).
  destruct (poll p); simpl in *; [done|]. by rewrite Hexit.
Qed.

Lemma stop_stdin (self : MCPServer) :
  stdin <$> process (stop self).2 = stdin <$> process self.
Proof.
  destruct (process self) as [p|] eqn:Hp.
  - rewrite (stop_started self p Hp).
    destruct (poll p); simpl; [done|]. by destruct (exits_within p 5).
  - unfold stop. rewrite Hp. simpl. by rewrite Hp.
Qed.

(** C3 (amended). For a started session, [stop] sends the terminate
    signal, and no other signal, to a subprocess that is still running,
    and nothing to one that has exited; it then waits for the grace
    period of five seconds and no longer: the return code is collected
    exactly when the subprocess is gone by then, and [stop] then returns
    normally.  So, whatever the [try] block did, when the subprocess of
    the first session is gone within the grace period the teardown goes
    on to stop the second session as well, and when the second is gone
    in time too the teardown adds no failure of its own. *)
Theorem stop_waits_for_grace_period {A : Type}
    (try_block : servers → result A * servers) (s : servers)
    (ts py : MCPServer) (p q : Popen) :
  (try_block s).2 = mkServers ts (Some py) →
  process ts = Some p →
  process py = Some q →
  signals <$> process (stop ts).2
  = Some (signals p ++ if poll p then [] else [SIGTERM])%list
  ∧ reaped <$> process (stop ts).2 = Some (poll p || exits_within p 5)
  ∧ (poll p || exits_within p 5 = true →
     (stop ts).1 = Return ()
     ∧ signals <$> process (ts_server (run_evaluation_with try_block s).2)
       = Some (signals p ++ if poll p then [] else [SIGTERM])%list
     ∧ signals <$> (py_server (run_evaluation_with try_block s).2 ≫= process)
       = Some (signals q ++ if poll q then [] else [SIGTERM])%list
     ∧ reaped <$> (py_server (run_evaluation_with try_block s).2 ≫= process)
       = Some (poll q || exits_within q 5)
     ∧ (poll q || exits_within q 5 = true →
        (run_evaluation_with try_block s).1 = (try_block s).1)).
Proof.
  intros Hs Hts Hpy.
  pose proof (stop_signals ts p Hts) as Hsig.
  pose proof (stop_reaped ts p Hts) as Hreap.
  split; [done|]. split; [done|]. intros Hexit.
  pose proof (stop_in_time ts p Hts Hexit) as Hok.
  pose proof (stop_signals py q Hpy) as Hsig'.
  pose proof (stop_reaped py q Hpy) as Hreap'.
  split; [done|].
  unfold run_evaluation_with, run_evaluation_finally.
  destruct (try_block s) as [r s1]. simpl in Hs. subst s1. simpl.
  destruct (stop ts) as [r1 ts'] eqn:Hstop. simpl in Hok, Hsig. subst r1.
  destruct (stop py) as [r2 py'] eqn:Hstop'. simpl in Hsig', Hreap'.
  assert (poll q || exits_within q 5 = true → r2 = Return ()) as Hok'.
  { intros Hq. pose proof (stop_in_time py q Hpy Hq) as H.
    by rewrite Hstop' in H. }
  destruct r2 as [[]|e]; simpl; repeat split; try done.
  intros Hq. by specialize (Hok' Hq).
Qed.

(** ** The theorems at sample inputs *)

(** The request carries id 1, the only line on the stream decodes to a
    response with id 99, and that response is what the call returns. *)
Lemma send_request_other_id_returned :
  let out := _send_request sample_loads sample_dumps "tools/list" (VDict ∅)
               (fresh [stray_line]) in
  stdin <$> process (session out.2)
    = Some [sample_dumps (VDict {[ "jsonrpc" := VStr "2.0"; "id" := VInt 1;
                                   "method" := VStr "tools/list";
                                   "params" := VDict ∅ ]}) ++ nl]
  ∧ sample_loads (stray_line ++ nl) = Some (VDict stray_response)
  ∧ stray_response !! "id" = Some (VInt 99)
  ∧ out.1 = Return (VDict stray_response).
Proof. repeat split; by_computation. Qed.

(** Only the Python side failed: the result has three entries, two of
    them from the comparison of the key sets. *)
Lemma one_sided_error_three_differences :
  exactly_one_errored failed_call plain_call
  ∧ compare_results elements failed_call plain_call None
    = [PythonErrored;
       KeysMissingInTypeScript {[ "error" ]};
       KeysMissingInPython {[ "ok" ]}].
Proof.
  split; [left; split; by_evaluation|by_computation].
Qed.

(** The TypeScript server ignores the terminate signal: [stop] raises
    after having sent that one signal, the teardown ends with the same
    exception, and the Python server was sent nothing. *)
Lemma stop_timeout_not_escalated :
  let ts := ts_server stubborn_pair in
  let out := run_evaluation_finally stubborn_pair in
  (stop ts).1 = Raise TimeoutExpired
  ∧ signals <$> process (stop ts).2 = Some [SIGTERM]
  ∧ out.1 = Raise TimeoutExpired
  ∧ signals <$> (py_server out.2 ≫= process) = Some [].
Proof. repeat split; by_computation. Qed.

(** A response without [error] whose [result] is [null]: [list_tools]
    raises. *)
Lemma list_tools_raises_without_error :
  more_loads (null_result_line ++ nl) = Some (VDict null_result_response)
  ∧ ("error" ∉ dom null_result_response)
  ∧ (list_tools more_loads sample_dumps sample_str (fresh [null_result_line])).1
    = Raise AttributeError.
Proof.
  split; [by_computation|]. split; [by_evaluation|by_computation].
Qed.

(** Three responses without [error] on which [call_tool] returns none of
    the three shapes: a [result] that is [null], a first content block
    that is a number, and a [text] that is a number. *)
Lemma call_tool_raises_on_response :
  let call line :=
    (call_tool odd_loads sample_dumps "list_projects" (VDict ∅) (fresh [line])).1 in
  odd_loads (null_result_line ++ nl) = Some (VDict null_result_response)
  ∧ call null_result_line = Raise AttributeError
  ∧ odd_loads (bare_block_line ++ nl) = Some (VDict bare_block_response)
  ∧ call bare_block_line = Raise AttributeError
  ∧ odd_loads (numeric_text_line ++ nl) = Some (VDict numeric_text_response)
  ∧ call numeric_text_line = Raise TypeError.
Proof. cbv zeta. repeat split; by_computation. Qed.

(** Both results carry [error], and their [items] have two elements and
    one: nothing is reported. *)
Lemma both_errored_lengths_unreported :
  failed_two_items !! "items" = Some (VList [VInt 1; VInt 2])
  ∧ failed_one_item !! "items" = Some (VList [VStr "x"])
  ∧ ("items" ∉ default_ignore_keys)
  ∧ length [VInt 1; VInt 2] ≠ length [VStr "x"]
  ∧ compare_results elements failed_two_items failed_one_item None = [].
Proof.
  split; [by_computation|]. split; [by_computation|].
  split; [by_evaluation|]. split; [by_evaluation|by_computation].
Qed.

(** Two failed results with different error values. *)
Lemma compare_results_both_errored_witness :
  compare_results elements failed_two_items failed_one_item None = [].
Proof.
  apply (compare_results_both_errored elements failed_two_items
           failed_one_item None); by_evaluation.
Defined.

(** A failed call against a successful one. *)
Lemma compare_results_one_sided_error_witness :
  (compare_results elements failed_call plain_call None
   = errored_side failed_call
     :: compare_fields elements failed_call plain_call default_ignore_keys)
  ∧ (errored_side failed_call
     ∉ compare_fields elements failed_call plain_call default_ignore_keys)
  ∧ ("error" ∉ default_ignore_keys →
     ∃ d, d ∈ compare_fields elements failed_call plain_call default_ignore_keys
          ∧ about "error" d = true).
Proof.
  apply (compare_results_one_sided_error elements failed_call plain_call None).
  left. split; by_evaluation.
Defined.

(** Two listings of different lengths, in the order [elements] visits
    the keys. *)
Lemma compare_results_sequences_witness :
  (length [VInt 1; VInt 2] = length [VStr "x"] →
   List.filter (about "items")
     (compare_results elements two_items one_item None) = [])
  ∧ (length [VInt 1; VInt 2] ≠ length [VStr "x"] →
     List.filter (about "items")
       (compare_results elements two_items one_item None)
     = [ArrayLengthDiffers "items" 2 1]).
Proof.
  apply (compare_results_sequences elements two_items one_item None "items"
           [VInt 1; VInt 2] [VStr "x"]).
  - intros X. reflexivity.
  - by_computation.
  - by_computation.
  - by_evaluation.
  - by_evaluation.
Defined.

(** Diagnostic output, then a notification, then the response. *)
Lemma send_request_skips_noise_witness :
  (∃ st' : state,
     _send_request sample_loads sample_dumps "tools/list" (VDict ∅) noisy
       = (Return (VDict tools_response), st')
     ∧ stdout <$> process (session st') = Some []
     ∧ sys_stderr st'
       = (sys_stderr noisy
          ++ invalid_json_log sample_loads (name (session noisy))
               [noise_line; notification_line])%list)
  ∧ (∀ (st0 st1 : state) (m : string) (ps : value) (n : gmap string value),
       _send_request sample_loads sample_dumps m ps st0
         = (Return (VDict n), st1) →
       "id" ∈ dom n).
Proof.
  apply (send_request_skips_noise sample_loads sample_dumps noisy
           (child [noise_line; notification_line; tools_line] true)
           "tools/list" (VDict ∅) [noise_line; notification_line]
           tools_line [] tools_response).
  - reflexivity.
  - reflexivity.
  - constructor; [|constructor; [|constructor]].
    + left. unfold malformed. by_computation.
    + right. exists notification_object. split; [by_computation|by_evaluation].
  - by_computation.
  - by_evaluation.
Defined.

(** A response listing no tools. *)
Lemma list_tools_fails_iff_error_witness :
  let st := fresh [tools_line] in
  let st' := after "tools/list" (VDict ∅) st in
  (raises (list_tools sample_loads sample_dumps sample_str st).1
   ↔ "error" ∈ dom tools_response
     ∨ ∃ r, tools_response !! "result" = Some r ∧ type_of r ≠ TDict)
  ∧ (∀ e, tools_response !! "error" = Some e →
       list_tools sample_loads sample_dumps sample_str st
       = (Raise (RuntimeError ("Error listing tools: " ++ sample_str e)), st'))
  ∧ ("error" ∉ dom tools_response →
     (∀ r, tools_response !! "result" = Some r → type_of r = TDict) →
     list_tools sample_loads sample_dumps sample_str st
     = (Return (default (VList [])
                  (tools_response !! "result" ≫= field "tools")), st'))
  ∧ ("error" ∉ dom tools_response →
     ∀ r, tools_response !! "result" = Some r → type_of r ≠ TDict →
       list_tools sample_loads sample_dumps sample_str st
       = (Raise AttributeError, st')).
Proof.
  apply (list_tools_fails_iff_error sample_loads sample_dumps sample_str
           (fresh [tools_line])
           (after "tools/list" (VDict ∅) (fresh [tools_line]))
           tools_response).
  by_computation.
Defined.

(** A result whose first content block carries the text of an array. *)
Lemma call_tool_shapes_witness :
  let st := fresh [content_line] in
  let st' := after "tools/call" (call_params "list_projects" (VDict ∅)) st in
  (∀ e, content_response !! "error" = Some e →
     call_tool sample_loads sample_dumps "list_projects" (VDict ∅) st
     = (Return (VDict {[ "error" := e ]}), st'))
  ∧ (∀ (result block : gmap string value) (more : list value) (text : string),
       content_response !! "error" = None →
       default (VDict ∅) (content_response !! "result") = VDict result →
       result !! "content" = Some (VList (VDict block :: more)) →
       block !! "text" = Some (VStr text) →
       call_tool sample_loads sample_dumps "list_projects" (VDict ∅) st
       = (Return (match sample_loads text with
                  | Some decoded => decoded
                  | None => VDict {[ "raw" := VStr text ]}
                  end), st'))
  ∧ (∀ result : gmap string value,
       content_response !! "error" = None →
       default (VDict ∅) (content_response !! "result") = VDict result →
       result !! "content" = None
       ∨ result !! "content" = Some (VList [])
       ∨ (∃ c, result !! "content" = Some c ∧ Py.truthy c = false) →
       call_tool sample_loads sample_dumps "list_projects" (VDict ∅) st
       = (Return (VDict result), st'))
  ∧ (∀ r : value,
       content_response !! "error" = None →
       content_response !! "result" = Some r → type_of r ≠ TDict →
       call_tool sample_loads sample_dumps "list_projects" (VDict ∅) st
       = (Raise AttributeError, st'))
  ∧ (∀ (result : gmap string value) (first : value) (more : list value),
       content_response !! "error" = None →
       default (VDict ∅) (content_response !! "result") = VDict result →
       result !! "content" = Some (VList (first :: more)) →
       type_of first ≠ TDict →
       call_tool sample_loads sample_dumps "list_projects" (VDict ∅) st
       = (Raise AttributeError, st'))
  ∧ (∀ (result block : gmap string value) (more : list value) (text : value),
       content_response !! "error" = None →
       default (VDict ∅) (content_response !! "result") = VDict result →
       result !! "content" = Some (VList (VDict block :: more)) →
       block !! "text" = Some text → type_of text ≠ TStr →
       call_tool sample_loads sample_dumps "list_projects" (VDict ∅) st
       = (Raise TypeError, st')).
Proof.
  apply (call_tool_shapes sample_loads sample_dumps (fresh [content_line])
           (after "tools/call" (call_params "list_projects" (VDict ∅))
              (fresh [content_line]))
           "list_projects" (VDict ∅) content_response).
  by_computation.
Defined.

(** A result whose first content block is an image. *)
Lemma call_tool_block_without_text_witness :
  call_tool sample_loads sample_dumps "list_projects" (VDict ∅)
    (fresh [image_line])
  = (Return (VDict ∅),
     after "tools/call" (call_params "list_projects" (VDict ∅))
       (fresh [image_line])).
Proof.
  apply (call_tool_block_without_text sample_loads sample_dumps
           (fresh [image_line])
           (after "tools/call" (call_params "list_projects" (VDict ∅))
              (fresh [image_line]))
           "list_projects" (VDict ∅) image_response image_result image_block []);
    by_computation.
Defined.

(** Two servers that exit when asked to, after a [try] block that
    failed. *)
Lemma stop_waits_for_grace_period_witness :
  let ts := ts_server obedient_pair in
  let try_block := λ s : servers, (Raise (A := unit) KeyError, s) in
  signals <$> process (stop ts).2 = Some [SIGTERM]
  ∧ reaped <$> process (stop ts).2 = Some true
  ∧ (stop ts).1 = Return ()
  ∧ signals <$> process (ts_server (run_evaluation_with try_block obedient_pair).2)
    = Some [SIGTERM]
  ∧ signals <$> (py_server (run_evaluation_with try_block obedient_pair).2
                 ≫= process)
    = Some [SIGTERM]
  ∧ reaped <$> (py_server (run_evaluation_with try_block obedient_pair).2
                ≫= process)
    = Some true
  ∧ (run_evaluation_with try_block obedient_pair).1 = Raise KeyError.
Proof.
  destruct (stop_waits_for_grace_period
              (λ s : servers, (Raise (A := unit) KeyError, s)) obedient_pair
              (started "TypeScript" [] true) (started "Python" [] true)
              (child [] true) (child [] true) eq_refl eq_refl eq_refl)
    as (Hsig & Hreap & Hrest).
  destruct (Hrest eq_refl) as (Hok & Hts & Hpy & Hpy' & Hsame).
  cbv zeta.
  exact (conj Hsig (conj Hreap (conj Hok (conj Hts (conj Hpy
           (conj Hpy' (Hsame eq_refl))))))).
Defined.

(** ** Scenarios *)

(** Two listings of three tools each, with different contents, match. *)
Example three_tools_each :
  compare_results elements
    {[ "tools" := VList [VStr "a"; VStr "b"; VStr "c"] ]}
    {[ "tools" := VList [VInt 1; VInt 2; VInt 3] ]} None
  = [].
Proof. by_computation. Qed.

(** Scalar values are not compared. *)
Example counts_not_compared :
  compare_results elements {[ "count" := VInt 5 ]} {[ "count" := VInt 7 ]} None
  = [].
Proof. by_computation. Qed.

(** An ignored key may be present on one side only. *)
Example ignored_key_on_one_side :
  compare_results elements
    {[ "updated" := VStr "2024-01-01"; "name" := VStr "a" ]}
    {[ "name" := VStr "b" ]} None
  = [].
Proof. by_computation. Qed.

(** A sequence against a mapping is a type mismatch. *)
Example sequence_against_mapping :
  compare_results elements
    {[ "values" := VList [VInt 1] ]} {[ "values" := VDict ∅ ]} None
  = [TypeMismatch "values" TList TDict].
Proof. by_computation. Qed.

Example length_message :
  compare_results_text (λ _, EmptyString) elements two_items one_item None
  = ["Array 'items' length differs: Python=2, TypeScript=1"].
Proof. by_computation. Qed.

(** The server closes its output before answering: the error names the
    session and carries what was on the error stream. *)
Example closed_before_answer :
  (_send_request sample_loads sample_dumps "initialize" (VDict ∅)
     (mkState
        (mkMCPServer "TypeScript" ["node"; "dist/index.js"] ∅
           (Some (mkPopen [] [] EmptyString "Configuration error" []
                          (λ _, true) false)))
        0 [])).1
  = Raise (RuntimeError
             "Server TypeScript closed unexpectedly: Configuration error").
Proof. by_computation. Qed.

(** A request on a session that was not started. *)
Example not_started :
  (_send_request sample_loads sample_dumps "tools/list" (VDict ∅)
     (mkState (mkMCPServer "Python" ["uv"; "run"] ∅ None) 0 [])).1
  = Raise (RuntimeError "Server Python not started").
Proof. by_computation. Qed.

(** A line that decodes to a number is not skipped: the test
    [id in response] raises on it. *)
Example number_on_the_stream :
  (_send_request sample_loads sample_dumps "tools/list" (VDict ∅)
     (fresh ["5"; tools_line])).1
  = Raise TypeError.
Proof. by_computation. Qed.

(** A subprocess that has exited by itself is sent no signal: [stop]
    collects its return code and returns. *)
Example stop_after_exit :
  let out := stop (mkMCPServer "TypeScript" ["node"] ∅ (Some (exited_child []))) in
  out.1 = Return ()
  ∧ signals <$> process out.2 = Some []
  ∧ reaped <$> process out.2 = Some true.
Proof. repeat split; by_computation. Qed.

(** [stop] on a session that was never started does nothing. *)
Example stop_unstarted :
  stop (mkMCPServer "Python" ["uv"; "run"] ∅ None)
  = (Return (), mkMCPServer "Python" ["uv"; "run"] ∅ None).
Proof. reflexivity. Qed.

(** ** Further properties of the comparator *)

Section ComparatorMore.

Variable set_iter : gset string → list string.
Hypothesis set_iter_ok : set_iter_spec set_iter.

Lemma set_iter_elem (X : gset string) (k : string) : k ∈ set_iter X ↔ k ∈ X.
Proof. rewrite (set_iter_ok X). apply elem_of_elements. Qed.

Lemma set_iter_NoDup (X : gset string) : NoDup (set_iter X).
Proof. rewrite (set_iter_ok X). apply NoDup_elements. Qed.

Lemma compare_key_about (py_result ts_result : gmap string value)
    (k : string) (d : difference) :
  d ∈ compare_key py_result ts_result k →
  ∀ key, about key d = String.eqb k key.
Proof.
  unfold compare_key.
  destruct (py_result !! k) as [u|]; [|by intros ?%elem_of_nil].
  destruct (ts_result !! k) as [v|]; [|by intros ?%elem_of_nil].
  destruct u, v; try case_decide;
    try (by intros ?%elem_of_nil);
    intros ->%list_elem_of_singleton; reflexivity.
Qed.

Lemma compare_key_shape (py_result ts_result : gmap string value)
    (k : string) (u v : value) :
  py_result !! k = Some u → ts_result !! k = Some v →
  compare_key py_result ts_result k = [] ↔ same_shape u v = true.
Proof.
  intros Hu Hv. unfold compare_key, same_shape. rewrite Hu, Hv.
  destruct u, v; case_decide; rewrite bool_decide_eq_true; simpl;
    split; try done; try congruence; try lia.
Qed.

Lemma compare_key_sets_nil (X Y : gset string) :
  compare_key_sets X Y = [] ↔ X = Y.
Proof.
  unfold compare_key_sets. case_decide as Hne; [|split; [|done]].
  - split; [|done]. intros Hnil. exfalso.
    destruct (decide (X ∖ Y ≠ ∅)) as [|HXY]; [done|].
    destruct (decide (Y ∖ X ≠ ∅)) as [|HYX]; [done|].
    apply Hne. apply dec_stable in HXY. apply dec_stable in HYX.
    apply set_eq. intros x. split; intros Hx.
    + destruct (decide (x ∈ Y)); [done|]. set_solver.
    + destruct (decide (x ∈ X)); [done|]. set_solver.
  - by intros _.
Qed.

Lemma flat_map_nil_iff {A B} (f : A → list B) (l : list A) :
  flat_map f l = [] ↔ ∀ x, x ∈ l → f x = [].
Proof.
  induction l as [|x l IH]; simpl.
  - split; [intros _ y Hy; by apply elem_of_nil in Hy|done].
  - rewrite app_nil, IH. split.
    + intros [Hx Hl] y [->|Hy]%elem_of_cons; auto.
    + intros H. split; [apply H; left|intros y Hy; apply H; by right].
Qed.

Lemma filter_about_nil (key : string) (ds : list difference) :
  List.filter (about key) ds = [] ↔ ∀ d, d ∈ ds → about key d = false.
Proof.
  induction ds as [|d ds IH]; simpl.
  - split; [intros _ d Hd; by apply elem_of_nil in Hd|done].
  - destruct (about key d) eqn:Hd.
    + split; [done|]. intros H. specialize (H d (list_elem_of_here _ _)).
      congruence.
    + rewrite IH. split.
      * intros H x [->|Hx]%elem_of_cons; auto.
      * intros H x Hx. apply H. by right.
Qed.

Lemma filter_about_all (key : string) (ds : list difference) :
  (∀ d, d ∈ ds → about key d = true) → List.filter (about key) ds = ds.
Proof.
  induction ds as [|d ds IH]; simpl; [done|]. intros H.
  rewrite (H d (list_elem_of_here _ _)), IH; [done|].
  intros x Hx. apply H. by right.
Qed.

(** The differences that speak of a key both sides have, outside the
    ignore set, are those of the loop body for that key, unless both
    results errored. *)
Lemma about_common_key (py_result ts_result : gmap string value)
    (ignore_keys : option (gset string)) (key : string) (u v : value) :
  py_result !! key = Some u → ts_result !! key = Some v →
  key ∉ default default_ignore_keys ignore_keys →
  ¬ both_errored py_result ts_result →
  List.filter (about key)
    (compare_results set_iter py_result ts_result ignore_keys)
  = compare_key py_result ts_result key.
Proof.
  intros Hu Hv Hign Hboth.
  set (ign := default default_ignore_keys ignore_keys) in *.
  assert (key ∈ dom py_result ∖ ign) as Hkpy
    by (apply elem_of_difference; split; [by apply elem_of_dom|done]).
  assert (key ∈ dom ts_result ∖ ign) as Hkts
    by (apply elem_of_difference; split; [by apply elem_of_dom|done]).
  unfold compare_results. fold ign.
  destruct (check_errors py_result ts_result) as [ds|] eqn:Hchk.
  - unfold compare_fields.
    rewrite !List.filter_app, (filter_about_check_errors _ _ _ _ Hchk),
      (filter_about_key_sets _ _ _ Hkpy Hkts). simpl.
    rewrite (filter_about_visited_once _ _ key).
    + apply filter_about_all. intros d Hd.
      rewrite (compare_key_about _ _ _ _ Hd). apply String.eqb_refl.
    + intros k Hk. by apply filter_about_other_key.
    + apply set_iter_NoDup.
    + apply set_iter_elem. set_solver.
  - exfalso. apply Hboth. unfold check_errors in Hchk.
    destruct (bool_decide ("error" ∈ dom py_result)) eqn:E1,
             (bool_decide ("error" ∈ dom ts_result)) eqn:E2;
      simpl in Hchk; try discriminate.
    split; [by apply bool_decide_eq_true in E1|by apply bool_decide_eq_true in E2].
Qed.

(** X1. For a key both sides have, outside the ignore set, whose two
    values are not both sequences: values of the same type give no
    difference for that key, whatever they are (scalars and nested
    mappings are not compared); values of different types give exactly
    one difference, naming both types.  (Unless both results errored.) *)
Theorem compare_results_types (py_result ts_result : gmap string value)
    (ignore_keys : option (gset string)) (key : string) (u v : value) :
  py_result !! key = Some u → ts_result !! key = Some v →
  key ∉ default default_ignore_keys ignore_keys →
  ¬ both_errored py_result ts_result →
  is_list u && is_list v = false →
  (type_of u = type_of v →
   List.filter (about key)
     (compare_results set_iter py_result ts_result ignore_keys) = [])
  ∧ (type_of u ≠ type_of v →
     List.filter (about key)
       (compare_results set_iter py_result ts_result ignore_keys)
     = [TypeMismatch key (type_of u) (type_of v)]).
Proof.
  intros Hu Hv Hign Hboth Hlists.
  rewrite (about_common_key _ _ _ _ _ _ Hu Hv Hign Hboth).
  unfold compare_key. rewrite Hu, Hv.
  destruct u, v; simpl in *; try discriminate;
    split; intros Hty; try case_decide; try done; congruence.
Qed.

(** X2. A key of the ignore set is never spoken of: it is in no reported
    key set and no per-key difference is about it, whether it is present
    on one side, on both with different shapes, or on neither. *)
Theorem compare_results_ignores (py_result ts_result : gmap string value)
    (ignore_keys : option (gset string)) (key : string) :
  key ∈ default default_ignore_keys ignore_keys →
  List.filter (about key)
    (compare_results set_iter py_result ts_result ignore_keys) = [].
Proof.
  intros Hign. set (ign := default default_ignore_keys ignore_keys) in *.
  unfold compare_results. fold ign.
  destruct (check_errors py_result ts_result) as [ds|] eqn:Hchk; [|done].
  unfold compare_fields.
  rewrite !List.filter_app, (filter_about_check_errors _ _ _ _ Hchk). simpl.
  apply app_nil. split.
  - apply filter_about_nil. intros d. unfold compare_key_sets.
    case_decide; [|by intros ?%elem_of_nil].
    rewrite elem_of_app.
    intros [Hd|Hd]; case_decide;
      try (by apply elem_of_nil in Hd);
      apply list_elem_of_singleton in Hd; subst d; simpl;
      apply bool_decide_eq_false_2; set_solver.
  - apply filter_about_unvisited.
    + intros k Hk. by apply filter_about_other_key.
    + rewrite set_iter_elem. set_solver.
Qed.

(** X3. A key outside the ignore set that only one side has is reported
    once, in the key-set difference of the side that lacks it, and that
    difference lists every such key; the two directions are independent.
    (Unless both results errored.) *)
Theorem compare_results_missing_key (py_result ts_result : gmap string value)
    (ignore_keys : option (gset string)) (key : string) :
  key ∉ default default_ignore_keys ignore_keys →
  ¬ both_errored py_result ts_result →
  (key ∈ dom py_result → key ∉ dom ts_result →
   List.filter (about key)
     (compare_results set_iter py_result ts_result ignore_keys)
   = [KeysMissingInTypeScript
        ((dom py_result ∖ default default_ignore_keys ignore_keys)
         ∖ (dom ts_result ∖ default default_ignore_keys ignore_keys))])
  ∧ (key ∉ dom py_result → key ∈ dom ts_result →
     List.filter (about key)
       (compare_results set_iter py_result ts_result ignore_keys)
     = [KeysMissingInPython
          ((dom ts_result ∖ default default_ignore_keys ignore_keys)
           ∖ (dom py_result ∖ default default_ignore_keys ignore_keys))]).
Proof.
  intros Hign Hboth.
  set (ign := default default_ignore_keys ignore_keys) in *.
  assert (∃ ds, check_errors py_result ts_result = Some ds) as [ds Hchk].
  { unfold check_errors, both_errored in *.
    destruct (bool_decide ("error" ∈ dom py_result)) eqn:E1,
             (bool_decide ("error" ∈ dom ts_result)) eqn:E2; simpl; eauto.
    exfalso. apply Hboth.
    split; [by apply bool_decide_eq_true in E1|by apply bool_decide_eq_true in E2]. }
  unfold compare_results. fold ign. rewrite Hchk. unfold compare_fields.
  rewrite !List.filter_app, (filter_about_check_errors _ _ _ _ Hchk). simpl.
  split; intros H1 H2.
  - rewrite (filter_about_unvisited _ _ key);
      [|intros k Hk; by apply filter_about_other_key
       |rewrite set_iter_elem; set_solver].
    rewrite app_nil_r. unfold compare_key_sets.
    assert (dom py_result ∖ ign ≠ dom ts_result ∖ ign) as Hne by set_solver.
    assert ((dom py_result ∖ ign) ∖ (dom ts_result ∖ ign) ≠ ∅) as Hmiss
      by set_solver.
    rewrite (decide_True _ _ Hne), (decide_True _ _ Hmiss).
    rewrite List.filter_app. simpl.
    rewrite (bool_decide_eq_true_2 _); [|set_solver].
    case_decide; simpl; [|done].
    rewrite (bool_decide_eq_false_2 _); [done|set_solver].
  - rewrite (filter_about_unvisited _ _ key);
      [|intros k Hk; by apply filter_about_other_key
       |rewrite set_iter_elem; set_solver].
    rewrite app_nil_r. unfold compare_key_sets.
    assert (dom py_result ∖ ign ≠ dom ts_result ∖ ign) as Hne by set_solver.
    assert ((dom ts_result ∖ ign) ∖ (dom py_result ∖ ign) ≠ ∅) as Hmiss
      by set_solver.
    rewrite (decide_True _ _ Hne), (decide_True _ _ Hmiss).
    rewrite List.filter_app. simpl.
    rewrite (bool_decide_eq_true_2 _); [|set_solver].
    case_decide; simpl; [|done].
    rewrite (bool_decide_eq_false_2 _); [done|set_solver].
Qed.

Lemma same_shape_sym (u v : value) : same_shape u v = same_shape v u.
Proof.
  destruct u, v; simpl; try reflexivity; apply bool_decide_ext; split; congruence.
Qed.

Lemma compare_results_nil_iff (py_result ts_result : gmap string value)
    (ignore_keys : option (gset string)) :
  compare_results set_iter py_result ts_result ignore_keys = []
  ↔ both_errored py_result ts_result
    ∨ (("error" ∉ dom py_result) ∧ ("error" ∉ dom ts_result)
       ∧ dom py_result ∖ default default_ignore_keys ignore_keys
         = dom ts_result ∖ default default_ignore_keys ignore_keys
       ∧ ∀ key u v,
           key ∉ default default_ignore_keys ignore_keys →
           py_result !! key = Some u → ts_result !! key = Some v →
           same_shape u v = true).
Proof.
  set (ign := default default_ignore_keys ignore_keys).
  unfold compare_results, check_errors, both_errored. fold ign.
  destruct (bool_decide ("error" ∈ dom py_result)) eqn:E1,
           (bool_decide ("error" ∈ dom ts_result)) eqn:E2; simpl;
    try apply bool_decide_eq_true in E1; try apply bool_decide_eq_true in E2;
    try apply bool_decide_eq_false in E1; try apply bool_decide_eq_false in E2.
  - split; [by left|done].
  - split; [done|]. intros [[_ ?]|(? & _)]; done.
  - split; [done|]. intros [[? _]|(_ & ? & _)]; done.
  - unfold compare_fields. rewrite app_nil, compare_key_sets_nil, flat_map_nil_iff.
    split.
    + intros [Hkeys Hall]. right. repeat split; try done.
      intros key u v Hign Hu Hv.
      apply (compare_key_shape py_result ts_result key u v Hu Hv).
      apply Hall, set_iter_elem.
      apply elem_of_intersection; split; apply elem_of_difference;
        (split; [apply elem_of_dom; eauto|done]).
    + intros [[? _]|(_ & _ & Hkeys & Hall)]; [done|]. split; [done|].
      intros key [[Hpy Hign]%elem_of_difference
                    [Hts _]%elem_of_difference]%set_iter_elem%elem_of_intersection.
      apply elem_of_dom in Hpy as [u Hu]. apply elem_of_dom in Hts as [v Hv].
      apply (compare_key_shape py_result ts_result key u v Hu Hv). eauto.
Qed.

(** X4. When the comparison finds nothing.  The result is empty exactly
    when both results errored, or neither did and the two have the same
    keys outside the ignore set, with values of the same shape (equal
    lengths for two sequences, equal types otherwise) under every such
    key.  It is never empty when exactly one side errored. *)
Theorem compare_results_match_iff (py_result ts_result : gmap string value)
    (ignore_keys : option (gset string)) :
  (compare_results set_iter py_result ts_result ignore_keys = []
   ↔ both_errored py_result ts_result
     ∨ (("error" ∉ dom py_result) ∧ ("error" ∉ dom ts_result)
        ∧ dom py_result ∖ default default_ignore_keys ignore_keys
          = dom ts_result ∖ default default_ignore_keys ignore_keys
        ∧ ∀ key u v,
            key ∉ default default_ignore_keys ignore_keys →
            py_result !! key = Some u → ts_result !! key = Some v →
            same_shape u v = true))
  ∧ (exactly_one_errored py_result ts_result →
     compare_results set_iter py_result ts_result ignore_keys ≠ []).
Proof.
  split; [apply compare_results_nil_iff|].
  intros Hone Hnil. apply compare_results_nil_iff in Hnil.
  unfold exactly_one_errored, both_errored in *.
  destruct Hone as [[? ?]|[? ?]], Hnil as [[? ?]|(? & ? & _)]; done.
Qed.

(** X5. The verdict does not depend on which result is called the Python
    one: the comparison of two results is empty exactly when the
    comparison with the sides exchanged is. *)
Theorem compare_results_match_sym (py_result ts_result : gmap string value)
    (ignore_keys : option (gset string)) :
  compare_results set_iter py_result ts_result ignore_keys = []
  ↔ compare_results set_iter ts_result py_result ignore_keys = [].
Proof.
  rewrite !compare_results_nil_iff. unfold both_errored.
  split.
  - intros [[? ?]|(? & ? & Hk & Hall)]; [by left|right].
    repeat split; try done. intros key u v Hign Hu Hv.
    rewrite same_shape_sym. eauto.
  - intros [[? ?]|(? & ? & Hk & Hall)]; [by left|right].
    repeat split; try done. intros key u v Hign Hu Hv.
    rewrite same_shape_sym. eauto.
Qed.

End ComparatorMore.

(** ** Further properties of the transport client *)

Section TransportMore.

Variable json_loads : string → option value.
Variable json_dumps : value → string.

(** The loop only consumes output: what was written to the child, the
    signals sent and the exit oracle are as before, and what is left of
    the output is a suffix of what there was. *)
Lemma read_loop_frame (self_name : string) (lines : list string) :
  ∀ p : Popen,
    stdout p = lines →
    let q := (read_loop json_loads self_name lines p).1.2 in
    stdin q = stdin p ∧ signals q = signals p
    ∧ exits_within q = exits_within p ∧ reaped q = reaped p
    ∧ ∃ consumed, lines = (consumed ++ stdout q)%list.
Proof.
  induction lines as [|l lines IH]; intros p Hout; simpl.
  - destruct (stdout_rest p) as [|c t]; simpl.
    + repeat split; try done. exists []. by rewrite Hout.
    + destruct (on_line _ _ _); simpl; repeat split; try done; by exists [].
  - destruct (on_line _ _ _) eqn:Hline; simpl.
    + repeat split; try done. by exists [l].
    + repeat split; try done. by exists [l].
    + specialize (IH (set_stdout p lines (stdout_rest p)) eq_refl).
      destruct (read_loop _ _ _ _) as [[r q] more]. simpl in *.
      destruct IH as (? & ? & ? & ? & consumed & ->).
      repeat split; try done. by exists (l :: consumed).
Qed.

(** A request on a started session consumes one id and writes one line,
    whether it then returns or raises. *)
Lemma send_request_frame (st : state) (p : Popen) (method : string)
    (params : value) :
  process (session st) = Some p →
  _message_id (_send_request json_loads json_dumps method params st).2
    = (_message_id st + 1)%N
  ∧ name (session (_send_request json_loads json_dumps method params st).2)
    = name (session st)
  ∧ ∃ q, process (session (_send_request json_loads json_dumps method params st).2)
           = Some q
      ∧ stdin q
        = (stdin p
           ++ [(json_dumps (request ((_message_id st) + 1) method params)
                ++ nl)%string])%list
      ∧ signals q = signals p
      ∧ ∃ consumed, stdout p = (consumed ++ stdout q)%list.
Proof.
  intros Hp. unfold _send_request. rewrite Hp. simpl.
  match goal with
  | |- context [read_loop _ _ _ ?p1] =>
      pose proof (read_loop_frame (name (session st)) (stdout p) p1 eq_refl)
        as Hframe;
      destruct (read_loop json_loads (name (session st)) (stdout p) p1)
        as [[r q] printed]
  end.
  simpl in *. destruct Hframe as (Hin & Hsig & _ & _ & consumed & Hout).
  repeat split; try done. exists q. repeat split; try done. by exists consumed.
Qed.

(** A request whose answer never comes before the output ends. *)
Lemma send_request_eof (st : state) (p : Popen) (method : string)
    (params : value) :
  process (session st) = Some p →
  Forall (skipped json_loads) (stdout p) →
  stdout_rest p = EmptyString →
  (_send_request json_loads json_dumps method params st).1
    = Raise (RuntimeError ("Server " ++ name (session st)
                           ++ " closed unexpectedly: " ++ stderr p))
  ∧ (λ q, (stdout q, stderr q))
      <$> process (session (_send_request json_loads json_dumps method params st).2)
    = Some ([], EmptyString)
  ∧ sys_stderr (_send_request json_loads json_dumps method params st).2
    = (sys_stderr st
       ++ invalid_json_log json_loads (name (session st)) (stdout p))%list.
Proof.
  intros Hp Hskip Hrest. unfold _send_request. rewrite Hp. simpl.
  assert (∀ lines q, Forall (skipped json_loads) lines →
            stdout_rest q = EmptyString →
            read_loop json_loads (name (session st)) lines q
            = (Raise (RuntimeError ("Server " ++ name (session st)
                                    ++ " closed unexpectedly: " ++ stderr q)),
               mkPopen (stdin q) (match lines with [] => stdout q | _ => [] end)
                       EmptyString EmptyString
                       (signals q) (exits_within q) (reaped q),
               invalid_json_log json_loads (name (session st)) lines)) as Hloop.
  { clear. induction lines as [|l lines IH]; intros q Hskip Hrest; simpl.
    - rewrite Hrest. unfold closed_unexpectedly, read_stderr. simpl.
      by rewrite Hrest.
    - apply Forall_cons in Hskip as [Hl Hskip].
      rewrite (on_line_skipped json_loads (name (session st)) l Hl).
      rewrite (IH (set_stdout q lines (stdout_rest q)) Hskip Hrest). simpl.
      rewrite app_nil_r. by destruct lines. }
  set (p1 := write_stdin p _).
  rewrite (Hloop (stdout p) p1 Hskip Hrest). simpl.
  repeat split. by destruct (stdout p).
Qed.

(** X8. A line that decodes to a number, a boolean or [null] is not
    passed over: the request fails with a [TypeError] there, the lines
    after it stay unread and the error stream is not read. *)
Theorem send_request_scalar_line (st : state) (p : Popen) (method : string)
    (params : value) (skip : list string) (line : string)
    (rest : list string) (v : value) :
  process (session st) = Some p →
  stdout p = (skip ++ line :: rest)%list →
  Forall (skipped json_loads) skip →
  json_loads (line ++ nl) = Some v →
  is_scalar v = true →
  (_send_request json_loads json_dumps method params st).1 = Raise TypeError
  ∧ (λ q, (stdout q, stderr q))
      <$> process (session (_send_request json_loads json_dumps method params st).2)
    = Some (rest, stderr p).
Proof.
  intros Hp Hout Hskip Hv Hscalar. unfold _send_request. rewrite Hp. simpl.
  rewrite Hout.
  assert (on_line json_loads (name (session st)) (line ++ nl) = Fail TypeError)
    as Hline.
  { unfold on_line. rewrite Hv. by destruct v. }
  assert (∀ q, read_loop json_loads (name (session st)) (skip ++ line :: rest) q
               = (Raise TypeError, set_stdout q rest (stdout_rest q),
                  invalid_json_log json_loads (name (session st)) skip)) as Hloop.
  { clear -Hskip Hline. induction Hskip as [|l skip Hl Hskip IH]; intros q; simpl.
    - by rewrite Hline.
    - rewrite (on_line_skipped json_loads _ l Hl), IH. simpl.
      by rewrite app_nil_r. }
  by rewrite Hloop.
Qed.

End TransportMore.

(** ** Properties of the session lifecycle *)

Section LifecycleFacts.

Variable json_loads : string → option value.
Variable json_dumps : value → string.
Variable py_str : value → string.
Variable popen : list string → gmap string string → Popen.
Variable os_environ : gmap string string.


Lemma list_tools_state (st : state) :
  (list_tools json_loads json_dumps py_str st).2
  = (_send_request json_loads json_dumps "tools/list" (VDict ∅) st).2.
Proof.
  unfold list_tools, mbind, M_bind.
  by destruct (_send_request _ _ _ _ st) as [[r|e] st'].
Qed.

Lemma call_tool_state (st : state) (tool : string) (arguments : value) :
  (call_tool json_loads json_dumps tool arguments st).2
  = (_send_request json_loads json_dumps "tools/call"
       (call_params tool arguments) st).2.
Proof.
  unfold call_tool, mbind, M_bind.
  by destruct (_send_request _ _ _ _ st) as [[r|e] st'].
Qed.

Lemma list_tools_raise (st : state) (e : exn) :
  (_send_request json_loads json_dumps "tools/list" (VDict ∅) st).1 = Raise e →
  (list_tools json_loads json_dumps py_str st).1 = Raise e.
Proof.
  unfold list_tools, mbind, M_bind.
  destruct (_send_request _ _ _ _ st) as [[r|e'] st']; simpl; congruence.
Qed.

Lemma call_tool_raise (st : state) (tool : string) (arguments : value) (e : exn) :
  (_send_request json_loads json_dumps "tools/call"
     (call_params tool arguments) st).1 = Raise e →
  (call_tool json_loads json_dumps tool arguments st).1 = Raise e.
Proof.
  unfold call_tool, mbind, M_bind.
  destruct (_send_request _ _ _ _ st) as [[r|e'] st']; simpl; congruence.
Qed.

(** X6. Every request on a started session consumes exactly one id and
    writes exactly one line, the encoding of the request carrying that
    id, after what was written before, whether the call then returns or
    raises; it sends no signal, and what is left of the output is a
    suffix of what there was.  A tool listing and a tool call are each
    exactly one such request. *)
Theorem request_accounting (st : state) (p : Popen) (method tool : string)
    (params arguments : value) :
  process (session st) = Some p →
  one_request json_dumps method params st p
    (_send_request json_loads json_dumps method params st).2
  ∧ one_request json_dumps "tools/list" (VDict ∅) st p
      (list_tools json_loads json_dumps py_str st).2
  ∧ one_request json_dumps "tools/call" (call_params tool arguments) st p
      (call_tool json_loads json_dumps tool arguments st).2.
Proof.
  intros Hp. rewrite list_tools_state, call_tool_state.
  repeat split; apply (send_request_frame json_loads json_dumps st p _ _ Hp).
Qed.

(** X7. When the output ends after lines that are only skipped, a
    request fails with a [RuntimeError] that names the session and
    carries everything that was on the error stream; the output and the
    error stream are then drained, and the malformed lines were logged.
    A tool listing and a tool call fail with that same error. *)
Theorem closed_stream (st : state) (p : Popen) (method tool : string)
    (params arguments : value) :
  process (session st) = Some p →
  Forall (skipped json_loads) (stdout p) →
  stdout_rest p = EmptyString →
  ((_send_request json_loads json_dumps method params st).1
     = Raise (RuntimeError ("Server " ++ name (session st)
                            ++ " closed unexpectedly: " ++ stderr p))
   ∧ (λ q, (stdout q, stderr q))
       <$> process (session (_send_request json_loads json_dumps method params st).2)
     = Some ([], EmptyString)
   ∧ sys_stderr (_send_request json_loads json_dumps method params st).2
     = (sys_stderr st
        ++ invalid_json_log json_loads (name (session st)) (stdout p))%list)
  ∧ (list_tools json_loads json_dumps py_str st).1
    = Raise (RuntimeError ("Server " ++ name (session st)
                           ++ " closed unexpectedly: " ++ stderr p))
  ∧ (call_tool json_loads json_dumps tool arguments st).1
    = Raise (RuntimeError ("Server " ++ name (session st)
                           ++ " closed unexpectedly: " ++ stderr p)).
Proof.
  intros Hp Hskip Hrest. split; [|split].
  - by apply send_request_eof.
  - apply list_tools_raise.
    by apply (send_request_eof json_loads json_dumps st p).
  - apply call_tool_raise.
    by apply (send_request_eof json_loads json_dumps st p).
Qed.

(** X9. On a session that was not started, a request, a notification,
    a tool listing and a tool call all raise the same [RuntimeError]
    naming the session, and leave the state as it was: no id is
    consumed and nothing is printed.  Stopping it does nothing. *)
Theorem unstarted_session (st : state) (method tool : string)
    (params arguments : value) :
  process (session st) = None →
  _send_request json_loads json_dumps method params st
    = (Raise (RuntimeError ("Server " ++ name (session st) ++ " not started")), st)
  ∧ _send_notification json_dumps method params st
    = (Raise (RuntimeError ("Server " ++ name (session st) ++ " not started")), st)
  ∧ list_tools json_loads json_dumps py_str st
    = (Raise (RuntimeError ("Server " ++ name (session st) ++ " not started")), st)
  ∧ call_tool json_loads json_dumps tool arguments st
    = (Raise (RuntimeError ("Server " ++ name (session st) ++ " not started")), st)
  ∧ stop (session st) = (Return (), session st).
Proof.
  intros Hp.
  assert (∀ m ps, _send_request json_loads json_dumps m ps st
            = (Raise (RuntimeError ("Server " ++ name (session st)
                                    ++ " not started")), st)) as Hsend.
  { intros m ps. unfold _send_request. by rewrite Hp. }
  repeat split.
  - apply Hsend.
  - unfold _send_notification. by rewrite Hp.
  - unfold list_tools, mbind, M_bind. by rewrite Hsend.
  - unfold call_tool, mbind, M_bind. by rewrite Hsend.
  - unfold stop. by rewrite Hp.
Qed.



End LifecycleFacts.

(** ** Further properties of the tool adapter *)

Section AdapterMore.

Variable json_loads : string → option value.
Variable json_dumps : value → string.

(** X23. What [call_tool] does not catch.  For a response without
    [error]: a [result] that is not a mapping, or a first content block
    that is not a mapping, raises [AttributeError]; a [content] that is
    a number other than zero or [true] raises [TypeError]; and so does a
    [text] that is not a string, since only a failed decoding is
    caught. *)
Theorem call_tool_malformed (st st' : state) (tool : string)
    (arguments : value) (response : gmap string value) :
  _send_request json_loads json_dumps "tools/call"
    (call_params tool arguments) st = (Return (VDict response), st') →
  response !! "error" = None →
  (∀ r, response !! "result" = Some r → type_of r ≠ TDict →
     call_tool json_loads json_dumps tool arguments st
     = (Raise AttributeError, st'))
  ∧ (∀ result c,
       default (VDict ∅) (response !! "result") = VDict result →
       result !! "content" = Some c →
       is_scalar c = true → Py.truthy c = true →
       call_tool json_loads json_dumps tool arguments st
       = (Raise TypeError, st'))
  ∧ (∀ result blk more,
       default (VDict ∅) (response !! "result") = VDict result →
       result !! "content" = Some (VList (blk :: more)) →
       type_of blk ≠ TDict →
       call_tool json_loads json_dumps tool arguments st
       = (Raise AttributeError, st'))
  ∧ (∀ result block more text,
       default (VDict ∅) (response !! "result") = VDict result →
       result !! "content" = Some (VList (VDict block :: more)) →
       block !! "text" = Some text →
       type_of text ≠ TStr →
       call_tool json_loads json_dumps tool arguments st
       = (Raise TypeError, st')).
Proof.
  intros Hsend He. rewrite (call_tool_after _ _ _ _ _ _ _ Hsend).
  unfold unwrap. simpl. rewrite (lacks_key _ _ He). simpl.
  repeat split.
  - intros r Hr Hty. rewrite Hr. simpl. by destruct r.
  - intros result c Hres Hc Hscalar Htrue. rewrite Hres. simpl.
    rewrite Hc. simpl. rewrite Htrue. by destruct c.
  - intros result blk more Hres Hc Hty. rewrite Hres. simpl.
    rewrite Hc. simpl. by destruct blk.
  - intros result block more text Hres Hc Htext Hty. rewrite Hres. simpl.
    rewrite Hc. simpl. rewrite Htext. simpl. by destruct text.
Qed.

End AdapterMore.

(** ** Properties of the comparator on arbitrary results *)

Lemma compare_results_any_mappings (set_iter : gset string → list string)
    (py ts : gmap string value) (ignore_keys : option (gset string)) :
  compare_results_any set_iter (VDict py) (VDict ts) ignore_keys
  = Return (compare_results set_iter py ts ignore_keys).
Proof.
  unfold compare_results_any, compare_results, check_errors, error_chain,
    compare_fields. simpl.
  by destruct (bool_decide ("error" ∈ dom py)),
              (bool_decide ("error" ∈ dom ts)).
Qed.

(** X12. On two mappings [compare_results_any] is [compare_results].
    A number, a boolean or [None] on either side makes it raise
    [TypeError].  Otherwise, when the two are not both mappings, it
    returns the empty list if both contain [error] (as a key, an element
    or a substring) and raises [AttributeError] if not: it never reports
    a difference between results that are not both mappings. *)
Theorem compare_results_any_cases (set_iter : gset string → list string)
    (py_result ts_result : value) (ignore_keys : option (gset string)) :
  (∀ py ts, py_result = VDict py → ts_result = VDict ts →
     compare_results_any set_iter py_result ts_result ignore_keys
     = Return (compare_results set_iter py ts ignore_keys))
  ∧ (is_scalar py_result || is_scalar ts_result = true →
     compare_results_any set_iter py_result ts_result ignore_keys
     = Raise TypeError)
  ∧ (is_scalar py_result || is_scalar ts_result = false →
     type_of py_result ≠ TDict ∨ type_of ts_result ≠ TDict →
     compare_results_any set_iter py_result ts_result ignore_keys
     = if has_error py_result && has_error ts_result
       then Return [] else Raise AttributeError).
Proof.
  split; [|split].
  - intros py ts -> ->. apply compare_results_any_mappings.
  - unfold compare_results_any.
    destruct py_result, ts_result; simpl; try done.
  - unfold compare_results_any, has_error.
    destruct py_result as [| | | |s|l|py], ts_result as [| | | |s'|l'|ts];
      simpl; try done; intros _ [Hty|Hty]; try done;
      repeat match goal with
      | |- context [bool_decide ?P] => destruct (bool_decide P); simpl
      | |- context [existsb ?f ?l] => destruct (existsb f l); simpl
      end; reflexivity.
Qed.

(** ** Properties of the listing stage *)

Lemma names_of_tools_named (l : list value) :
  if forallb named l
  then ∃ ns, names_of_tools l = Return ns
  else ∃ e, names_of_tools l = Raise e ∧ (e = KeyError ∨ e = TypeError).
Proof.
  induction l as [|t l IH]; simpl; [by exists []|].
  unfold name_of_tool.
  destruct t as [| | | | | |d]; simpl; try (exists TypeError; by auto).
  destruct (d !! "name") as [n|]; simpl; [|exists KeyError; by auto].
  destruct (hashable n); simpl; [|exists TypeError; by auto].
  destruct (forallb named l).
  - destruct IH as [ns ->]. simpl. by eexists.
  - destruct IH as (e & -> & He). simpl. by exists e.
Qed.

(** The listing stage on a list of tools. *)
Lemma listing_named (l : list value) :
  if forallb named l
  then listing (VList l) = Return ()
  else ∃ e, listing (VList l) = Raise e ∧ (e = KeyError ∨ e = TypeError).
Proof.
  pose proof (names_of_tools_named l) as H. unfold listing. simpl.
  destruct (forallb named l).
  - destruct H as [ns ->]. done.
  - destruct H as (e & -> & He). by exists e.
Qed.

(** ** Properties of the summary *)

Lemma filter_all_iff {A} (f : A → bool) (l : list A) :
  length (List.filter f l) = length l ↔ Forall (λ x, f x = true) l.
Proof.
  induction l as [|x l IH]; simpl.
  - split; [constructor|done].
  - pose proof (List.filter_length_le f l). destruct (f x) eqn:Hx; simpl.
    + rewrite Forall_cons. split.
      * intros [= H']. split; [done|]. by apply IH.
      * intros [_ H']. f_equal. by apply IH.
    + rewrite Forall_cons. split; [lia|]. intros [? _]. congruence.
Qed.

(** X13. [print_summary] returns [True] exactly when every result has
    [success] set. *)
Theorem print_summary_verdict (results : list TestResult) :
  (print_summary results).1 = true ↔ Forall (λ r, success r = true) results.
Proof.
  unfold print_summary. simpl. rewrite bool_decide_eq_true.
  pose proof (List.filter_length_le success results).
  rewrite <- filter_all_iff. lia.
Qed.

(** X14. What the summary prints.  When every test passed it prints the
    three heading lines and the three counts, with no failure, and
    nothing else.  Every failed test is listed by name, with its error
    message when that is a non-empty string and with each of its
    differences. *)
Theorem print_summary_lines (results : list TestResult) :
  (Forall (λ r, success r = true) results →
   (print_summary results).2
   = [nl +:+ times "=" 60; "EVALUATION SUMMARY"; times "=" 60;
      nl +:+ "Total tests: " +:+ pretty (length results);
      "Passed: " +:+ pretty (length results);
      "Failed: 0"])
  ∧ (∀ r, r ∈ results → success r = false →
       ("  - " +:+ tool_name r) ∈ (print_summary results).2
       ∧ (∀ e, error r = Some e → e ≠ EmptyString →
            ("    Error: " +:+ e) ∈ (print_summary results).2)
       ∧ (∀ d, d ∈ differences r →
            ("    Diff: " +:+ d) ∈ (print_summary results).2)).
Proof.
  split.
  - intros Hall. apply filter_all_iff in Hall.
    unfold print_summary. simpl. rewrite Hall, Nat.sub_diag. simpl.
    reflexivity.
  - intros r Hr Hfail.
    assert (¬ Forall (λ r, success r = true) results) as Hnot.
    { rewrite Forall_forall. intros H. specialize (H r Hr). congruence. }
    rewrite <- filter_all_iff in Hnot.
    pose proof (List.filter_length_le success results).
    unfold print_summary. simpl.
    rewrite bool_decide_eq_true_2 by lia.
    assert (∀ x, x ∈ failed_test_lines r →
              x ∈ ([nl +:+ times "=" 60; "EVALUATION SUMMARY"; times "=" 60;
                    nl +:+ "Total tests: " +:+ pretty (length results);
                    "Passed: " +:+ pretty (length (List.filter success results));
                    "Failed: " +:+ pretty (length results
                                           - length (List.filter success results))]
                   ++ (nl +:+ "Failed tests:")
                      :: flat_map failed_test_lines results)%list) as Hin.
    { intros x Hx. apply elem_of_app. right. apply elem_of_cons. right.
      apply list_elem_of_In, in_flat_map. exists r.
      split; by apply list_elem_of_In. }
    unfold failed_test_lines in Hin. rewrite Hfail in Hin.
    repeat split.
    + apply Hin. apply elem_of_app. left. apply list_elem_of_here.
    + intros e He Hne. apply Hin. rewrite He.
      apply String.eqb_neq in Hne. rewrite Hne.
      apply elem_of_app. right. apply elem_of_app. left. apply list_elem_of_here.
    + intros d Hd. apply Hin.
      apply elem_of_app. right. apply elem_of_app. right.
      by apply (list_elem_of_fmap_2 _ _ d).
Qed.

(** ** Properties of the orchestrator *)

Section OrchestratorFacts.

Variable json_loads : string → option value.
Variable json_dumps : value → string.
Variable popen : list string → gmap string string → Popen.
Variable os_environ : gmap string string.
Variable set_repr : gset string → string.
Variable set_iter : gset string → list string.
Variable py_str : value → string.
Variable exn_str : exn → string.

Lemma on_ts_py_server {A} (m : M A) (w : world) :
  py_server (sessions (on_ts m w).2) = py_server (sessions w).
Proof. unfold on_ts. by destruct (m _). Qed.

Lemma on_py_ts_server {A} (py : MCPServer) (m : M A) (w : world) :
  ts_server (sessions (on_py py m w).2) = ts_server (sessions w).
Proof. unfold on_py. by destruct (m _). Qed.

Lemma report_error_mapping (which : loop) (d : gmap string value) :
  report_error which (VDict d) = Return ().
Proof.
  unfold report_error. simpl. case_bool_decide as Hd; [|done].
  apply elem_of_dom in Hd as [e He]. destruct which; simpl; by rewrite ?He.
Qed.

(** X15. Every pass of a test loop yields a result for the tool it was
    given, and never raises.  The result has [success] set exactly when
    it carries no error message and no difference; a result with an error
    message has no differences; and the Python result is only there when
    the TypeScript one is, and never in TypeScript-only mode. *)
Theorem run_test_result (which : loop) (tool : string)
    (args : gmap string value) (w : world) :
  let r := (run_test json_loads json_dumps set_repr set_iter exn_str
              which tool args w).1 in
  tool_name r = tool
  ∧ (success r = true ↔ error r = None ∧ differences r = [])
  ∧ (is_Some (error r) → differences r = [])
  ∧ (typescript_result r = None → python_result r = None)
  ∧ (py_server (sessions w) = None → python_result r = None).
Proof.
  unfold run_test.
  pose proof (on_ts_py_server
                (call_tool json_loads json_dumps tool (VDict args)) w) as Hpy.
  destruct (on_ts _ w) as [[ts_result|e] w1]; simpl in *;
    [|repeat split; try done; by intros [? ?]].
  destruct (report_error which ts_result);
    [|repeat split; try done; by intros [? ?]].
  destruct (py_server (sessions w1)) as [py|] eqn:Hpy1;
    [|repeat split; try done; by intros [? ?]].
  destruct (on_py py _ w1) as [[py_result|e] w2]; simpl;
    [|repeat split; try done; try (by intros [? ?]); congruence].
  destruct (report_error which py_result); simpl;
    [|repeat split; try done; try (by intros [? ?]); congruence].
  destruct (compare_results_any _ _ _ _) as [ds|e]; simpl;
    [|repeat split; try done; try (by intros [? ?]); congruence].
  repeat split; try done; try congruence.
  - apply bool_decide_eq_true in H. by subst ds.
  - intros [_ Hd]. apply bool_decide_eq_true. by apply fmap_nil_inv in Hd.
Qed.

(** X16. In TypeScript-only mode a test passes as soon as the call
    returns a mapping, the error wrapper included: an error reported by
    the server is printed, not counted as a failure. *)
Theorem run_test_ts_only (which : loop) (tool : string)
    (args d : gmap string value) (w w1 : world) :
  py_server (sessions w) = None →
  on_ts (call_tool json_loads json_dumps tool (VDict args)) w
    = (Return (VDict d), w1) →
  run_test json_loads json_dumps set_repr set_iter exn_str which tool args w
  = (mkTestResult tool true None (Some (VDict d)) None [], w1).
Proof.
  intros Hnone Hcall. unfold run_test.
  pose proof (on_ts_py_server
                (call_tool json_loads json_dumps tool (VDict args)) w) as Hpy.
  rewrite Hcall in *. simpl in Hpy.
  by rewrite report_error_mapping, Hpy, Hnone.
Qed.

(** X17. When both servers answer with mappings, the test records the
    two results and the text of what [compare_results] finds between the
    Python and the TypeScript one, and passes exactly when that is
    nothing.  In particular it passes when both servers answered with an
    error, whatever the two errors are. *)
Theorem run_test_compares (which : loop) (tool : string)
    (args a b : gmap string value) (py : MCPServer) (w w1 w2 : world) :
  on_ts (call_tool json_loads json_dumps tool (VDict args)) w
    = (Return (VDict a), w1) →
  py_server (sessions w) = Some py →
  on_py py (call_tool json_loads json_dumps tool (VDict args)) w1
    = (Return (VDict b), w2) →
  run_test json_loads json_dumps set_repr set_iter exn_str which tool args w
  = (mkTestResult tool (bool_decide (compare_results set_iter b a None = []))
       (Some (VDict b)) (Some (VDict a)) None
       (message set_repr <$> compare_results set_iter b a None), w2)
  ∧ ("error" ∈ dom a → "error" ∈ dom b →
     run_test json_loads json_dumps set_repr set_iter exn_str which tool args w
     = (mkTestResult tool true (Some (VDict b)) (Some (VDict a)) None [], w2)).
Proof.
  intros Hts Hpy Hcall.
  assert (run_test json_loads json_dumps set_repr set_iter exn_str which tool
            args w
          = (mkTestResult tool
               (bool_decide (compare_results set_iter b a None = []))
               (Some (VDict b)) (Some (VDict a)) None
               (message set_repr <$> compare_results set_iter b a None), w2))
    as Hrun.
  { unfold run_test.
    pose proof (on_ts_py_server
                  (call_tool json_loads json_dumps tool (VDict args)) w) as Hpy1.
    rewrite Hts in *. simpl in Hpy1.
    rewrite report_error_mapping, Hpy1, Hpy, Hcall, report_error_mapping.
    by rewrite compare_results_any_mappings. }
  split; [done|]. intros Ha Hb. rewrite Hrun.
  assert (compare_results set_iter b a None = []) as ->; [|done].
  unfold compare_results, check_errors.
  by rewrite (bool_decide_eq_true_2 _ Ha), (bool_decide_eq_true_2 _ Hb).
Qed.


Lemma run_test_tool_name (which : loop) (tool : string)
    (args : gmap string value) (w : world) :
  tool_name (run_test json_loads json_dumps set_repr set_iter exn_str
               which tool args w).1 = tool.
Proof.
  unfold run_test.
  repeat match goal with
  | |- context [match ?x with _ => _ end] => destruct x; simpl; try done
  end.
Qed.

Lemma run_plan_names (which : loop) (plan : list (string * gmap string value))
    (w : world) :
  tool_name <$> (run_plan json_loads json_dumps set_repr set_iter exn_str
                   which plan w).1
  = plan.*1.
Proof.
  revert w. induction plan as [|[tool args] plan IH]; intros w; simpl; [done|].
  pose proof (run_test_tool_name which tool args w) as Hname.
  destruct (run_test _ _ _ _ _ which tool args w) as [r w1].
  specialize (IH w1). destruct (run_plan _ _ _ _ _ which plan w1) as [rs w2].
  simpl in *. rewrite Hname. f_equal. exact IH.
Qed.

(** X19. A test loop yields exactly one result for each entry of its
    plan, in the order of the plan, whatever fails on the way: no
    failure of a tool ends the loop. *)
Theorem run_plan_covers (which : loop) (plan : list (string * gmap string value))
    (w : world) :
  tool_name <$> (run_plan json_loads json_dumps set_repr set_iter exn_str
                   which plan w).1
  = plan.*1
  ∧ length (run_plan json_loads json_dumps set_repr set_iter exn_str
              which plan w).1
    = length plan.
Proof.
  split; [apply run_plan_names|].
  rewrite <- (length_fmap tool_name), run_plan_names. apply length_fmap.
Qed.


Lemma W_bind_post {A B} (m : W A) (f : A → W B) (P : world → Prop)
    (w : world) :
  (∀ e w1, m w = (Raise e, w1) → P w1) →
  (∀ a w1, m w = (Return a, w1) → P (f a w1).2) →
  P ((m ≫= f) w).2.
Proof.
  intros He Ha. unfold mbind, W_bind.
  destruct (m w) as [[a|e] w1]; simpl; eauto.
Qed.



(** X24. The two sessions draw their ids from one counter.  In a pass
    where the TypeScript call returns and the Python server is then
    called, the TypeScript request carries the next id and the Python
    request the one after it, each written after what its session had
    written before; the pass consumes exactly two ids, whatever the
    Python server answers. *)
Theorem run_test_ids (which : loop) (tool : string) (args : gmap string value)
    (w w1 : world) (ts_result : value) (py : MCPServer) (p q : Popen) :
  process (ts_server (sessions w)) = Some p →
  py_server (sessions w) = Some py →
  process py = Some q →
  on_ts (call_tool json_loads json_dumps tool (VDict args)) w
    = (Return ts_result, w1) →
  report_error which ts_result = Return () →
  w_message_id
    (run_test json_loads json_dumps set_repr set_iter exn_str which tool args w).2
    = (w_message_id w + 2)%N
  ∧ stdin <$> process (ts_server (sessions
      (run_test json_loads json_dumps set_repr set_iter exn_str which tool
         args w).2))
    = Some (stdin p
            ++ [(json_dumps (request (w_message_id w + 1) "tools/call"
                               (call_params tool (VDict args))) ++ nl)%string])%list
  ∧ stdin <$> (py_server (sessions
      (run_test json_loads json_dumps set_repr set_iter exn_str which tool
         args w).2) ≫= process)
    = Some (stdin q
            ++ [(json_dumps (request (w_message_id w + 2) "tools/call"
                               (call_params tool (VDict args))) ++ nl)%string])%list.
Proof.
  intros Hp Hpy Hq Hts Hreport.
  assert (w_message_id w1 = (w_message_id w + 1)%N
          ∧ py_server (sessions w1) = Some py
          ∧ stdin <$> process (ts_server (sessions w1))
            = Some (stdin p
                    ++ [(json_dumps (request (w_message_id w + 1) "tools/call"
                                       (call_params tool (VDict args)))
                         ++ nl)%string])%list) as (Hid1 & Hpy1 & Hin1).
  { unfold on_ts in Hts.
    pose proof (send_request_frame json_loads json_dumps
                  (mkState (ts_server (sessions w)) (w_message_id w)
                           (w_sys_stderr w)) p "tools/call"
                  (call_params tool (VDict args)) Hp)
      as (Hid & _ & p' & Hp' & Hin & _).
    rewrite <- call_tool_state in Hid, Hp'.
    destruct (call_tool _ _ _ _ _) as [r st]. injection Hts as _ <-.
    simpl in *. rewrite Hp'. simpl. by rewrite Hin. }
  set (st_py := mkState py (w_message_id w1) (w_sys_stderr w1)).
  pose proof (send_request_frame json_loads json_dumps st_py q "tools/call"
                (call_params tool (VDict args)) Hq)
    as (Hid2 & _ & q' & Hq' & Hin2 & _).
  rewrite <- call_tool_state in Hid2, Hq'.
  assert ((run_test json_loads json_dumps set_repr set_iter exn_str which tool
             args w).2
          = (on_py py (call_tool json_loads json_dumps tool (VDict args)) w1).2)
    as ->.
  { unfold run_test. rewrite Hts, Hreport, Hpy1.
    destruct (on_py py _ w1) as [[py_result|e] w2]; simpl; [|done].
    destruct (report_error which py_result); [|done].
    by destruct (compare_results_any _ _ _ _). }
  unfold on_py. fold st_py.
  destruct (call_tool _ _ _ _ st_py) as [r st]. simpl in *.
  rewrite Hid2, Hid1, Hq', Hin1. simpl. rewrite Hin2, Hid1.
  replace (w_message_id w + 1 + 1)%N with (w_message_id w + 2)%N by lia.
  done.
Qed.

(** *** Children are only touched by [start] and [stop] *)

Lemma same_child_refl (s : MCPServer) : same_child s s.
Proof. unfold same_child. by destruct (process s). Qed.

Lemma same_child_trans (s1 s2 s3 : MCPServer) :
  same_child s1 s2 → same_child s2 s3 → same_child s1 s3.
Proof.
  unfold same_child.
  destruct (process s1), (process s2), (process s3); try done.
  intros (? & ? & ?) (? & ? & ?). split; [|split]; congruence.
Qed.

Lemma same_children_refl (w : world) : same_children w w.
Proof.
  split; [apply same_child_refl|].
  destruct (py_server (sessions w)); [apply same_child_refl|done].
Qed.

Lemma same_children_trans (w1 w2 w3 : world) :
  same_children w1 w2 → same_children w2 w3 → same_children w1 w3.
Proof.
  intros [Ht Hp] [Ht' Hp']. split; [by eapply same_child_trans|].
  destruct (py_server (sessions w1)), (py_server (sessions w2)),
           (py_server (sessions w3)); try done.
  by eapply same_child_trans.
Qed.

Lemma child_of_same (c : Popen) (s s' : MCPServer) :
  child_of c s → same_child s s' → child_of c s'.
Proof.
  intros (q & Hq & Hsig & Hex & Hr). unfold same_child. rewrite Hq.
  destruct (process s') as [q'|] eqn:Hq'; [|done].
  intros (Hs & He & Hr'). exists q'.
  split; [done|]. split; [|split]; congruence.
Qed.

Lemma send_request_same_child (st : state) (method : string) (params : value) :
  same_child (session st)
    (session (_send_request json_loads json_dumps method params st).2).
Proof.
  unfold _send_request, same_child.
  destruct (process (session st)) as [p|] eqn:Hp; simpl; [|by rewrite Hp].
  match goal with
  | |- context [read_loop _ _ _ ?p1] =>
      pose proof (read_loop_frame json_loads (name (session st)) (stdout p)
                    p1 eq_refl) as Hframe;
      destruct (read_loop json_loads (name (session st)) (stdout p) p1)
        as [[r q] printed]
  end.
  simpl in *. by destruct Hframe as (_ & ? & ? & ? & _).
Qed.

Lemma notification_same_child (st : state) (method : string) (params : value) :
  same_child (session st)
    (session (_send_notification json_dumps method params st).2).
Proof.
  unfold _send_notification, same_child.
  destruct (process (session st)) as [p|] eqn:Hp; simpl; by rewrite ?Hp.
Qed.

Lemma list_tools_same_child (st : state) :
  same_child (session st)
    (session (list_tools json_loads json_dumps py_str st).2).
Proof. rewrite list_tools_state. apply send_request_same_child. Qed.

Lemma call_tool_same_child (st : state) (tool : string) (arguments : value) :
  same_child (session st)
    (session (call_tool json_loads json_dumps tool arguments st).2).
Proof. rewrite call_tool_state. apply send_request_same_child. Qed.

(** After [start] the session has the child that was created, with no
    signal sent to it, whether the handshake succeeded or not. *)
Lemma start_child (st : state) :
  child_of (popen (command (session st)) (full_env os_environ (session st)))
    (session (start json_loads json_dumps popen os_environ st).2).
Proof.
  unfold start, mbind, M_bind.
  set (child := popen _ _).
  set (spawned := mkState _ _ _).
  assert (child_of child (session spawned)) as Hc by (by exists child).
  pose proof (send_request_same_child spawned "initialize" initialize_params)
    as Hreq.
  destruct (_send_request _ _ _ _ spawned) as [[v|e] st1]; simpl in *.
  - eapply child_of_same; [|apply notification_same_child].
    by eapply child_of_same.
  - by eapply child_of_same.
Qed.

Lemma keeps_on_ts {A} (m : M A) :
  (∀ st, same_child (session st) (session (m st).2)) →
  keeps_children (on_ts m).
Proof.
  intros Hm w. unfold on_ts.
  specialize (Hm (mkState (ts_server (sessions w)) (w_message_id w)
                          (w_sys_stderr w))).
  destruct (m _) as [r st]. split; simpl in *; [done|].
  destruct (py_server (sessions w)); [apply same_child_refl|done].
Qed.

Lemma keeps_on_py {A} (m : M A) (py : MCPServer) (w : world) :
  (∀ st, same_child (session st) (session (m st).2)) →
  py_server (sessions w) = Some py →
  same_children w (on_py py m w).2.
Proof.
  intros Hm Hpy. unfold on_py.
  specialize (Hm (mkState py (w_message_id w) (w_sys_stderr w))).
  destruct (m _) as [r st]. split; simpl in *; [apply same_child_refl|].
  by rewrite Hpy.
Qed.

Lemma keeps_bind {A B} (m : W A) (f : A → W B) :
  keeps_children m → (∀ a, keeps_children (f a)) → keeps_children (m ≫= f).
Proof.
  intros Hm Hf w. unfold mbind, W_bind. specialize (Hm w).
  destruct (m w) as [[a|e] w1]; simpl in *; [|done].
  eapply same_children_trans; [exact Hm|apply Hf].
Qed.

Lemma keeps_lift_w {A} (r : result A) : keeps_children (lift_w r).
Proof. intros w. apply same_children_refl. Qed.

Lemma keeps_ret {A} (a : A) : keeps_children (mret a).
Proof. intros w. apply same_children_refl. Qed.

Lemma keeps_if_py (f : MCPServer → W unit) :
  (∀ py w, py_server (sessions w) = Some py → same_children w (f py w).2) →
  keeps_children (if_py f).
Proof.
  intros Hf w. unfold if_py.
  destruct (py_server (sessions w)) as [py|] eqn:Hpy; [by apply Hf|].
  apply same_children_refl.
Qed.

Lemma run_test_keeps (which : loop) (tool : string)
    (args : gmap string value) (w : world) :
  same_children w
    (run_test json_loads json_dumps set_repr set_iter exn_str which tool args w).2.
Proof.
  unfold run_test.
  pose proof (keeps_on_ts (call_tool json_loads json_dumps tool (VDict args))
                (λ st, call_tool_same_child st tool (VDict args)) w) as H1.
  destruct (on_ts _ w) as [[ts_result|e] w1]; simpl in *; [|done].
  destruct (report_error which ts_result); [|done].
  destruct (py_server (sessions w1)) as [py|] eqn:Hpy; [|done].
  pose proof (keeps_on_py (call_tool json_loads json_dumps tool (VDict args))
                py w1 (λ st, call_tool_same_child st tool (VDict args)) Hpy)
    as H2.
  destruct (on_py py _ w1) as [[py_result|e] w2]; simpl in *;
    [|by eapply same_children_trans].
  destruct (report_error which py_result);
    [|by eapply same_children_trans].
  destruct (compare_results_any _ _ _ _); by eapply same_children_trans.
Qed.

Lemma run_plan_keeps (which : loop) (plan : list (string * gmap string value))
    (w : world) :
  same_children w
    (run_plan json_loads json_dumps set_repr set_iter exn_str which plan w).2.
Proof.
  revert w. induction plan as [|[tool args] plan IH]; intros w; simpl.
  - apply same_children_refl.
  - pose proof (run_test_keeps which tool args w) as H1.
    destruct (run_test _ _ _ _ _ which tool args w) as [r w1].
    specialize (IH w1).
    destruct (run_plan _ _ _ _ _ which plan w1) as [rs w2]. simpl in *.
    by eapply same_children_trans.
Qed.

Lemma keeps_run_plan (which : loop) (plan : list (string * gmap string value)) :
  keeps_children
    (total (run_plan json_loads json_dumps set_repr set_iter exn_str which plan)).
Proof.
  intros w. unfold total. pose proof (run_plan_keeps which plan w) as H.
  by destruct (run_plan _ _ _ _ _ which plan w).
Qed.

Lemma on_ts_start_child (w : world) :
  child_of (popen (command (ts_server (sessions w)))
              (full_env os_environ (ts_server (sessions w))))
    (ts_server (sessions (on_ts (start json_loads json_dumps popen os_environ) w).2))
  ∧ py_server (sessions (on_ts (start json_loads json_dumps popen os_environ) w).2)
    = py_server (sessions w).
Proof.
  unfold on_ts.
  pose proof (start_child (mkState (ts_server (sessions w)) (w_message_id w)
                                   (w_sys_stderr w))) as H.
  by destruct (start _ _ _ _ _).
Qed.

Lemma on_py_start_child (py : MCPServer) (w : world) :
  ∃ py', py_server (sessions (on_py py (start json_loads json_dumps popen
                                          os_environ) w).2) = Some py'
         ∧ child_of (popen (command py) (full_env os_environ py)) py'.
Proof.
  unfold on_py.
  pose proof (start_child (mkState py (w_message_id w) (w_sys_stderr w))) as H.
  destruct (start _ _ _ _ _) as [r st]. by exists (session st).
Qed.

(** What the [try] block leaves: the TypeScript session has its child;
    the Python session, when there is one, is as it was or has its
    child; and neither child was sent a signal. *)
Lemma try_children (test_repo : value) (w : world) :
  child_of (popen (command (ts_server (sessions w)))
              (full_env os_environ (ts_server (sessions w))))
    (ts_server (sessions
       (run_evaluation_try json_loads json_dumps popen os_environ set_repr
          set_iter py_str exn_str test_repo w).2))
  ∧ match py_server (sessions w),
          py_server (sessions
            (run_evaluation_try json_loads json_dumps popen os_environ set_repr
               set_iter py_str exn_str test_repo w).2) with
    | None, None => True
    | Some py, Some py' =>
        py' = py ∨ child_of (popen (command py) (full_env os_environ py)) py'
    | _, _ => False
    end.
Proof.
  set (P := λ wt : world,
         child_of (popen (command (ts_server (sessions w)))
                     (full_env os_environ (ts_server (sessions w))))
           (ts_server (sessions wt))
         ∧ match py_server (sessions w), py_server (sessions wt) with
           | None, None => True
           | Some py, Some py' =>
               py' = py
               ∨ child_of (popen (command py) (full_env os_environ py)) py'
           | _, _ => False
           end).
  change (P (run_evaluation_try json_loads json_dumps popen os_environ
               set_repr set_iter py_str exn_str test_repo w).2).
  unfold run_evaluation_try.
  destruct (on_ts_start_child w) as [Hts Hpy].
  apply W_bind_post.
  { intros e w1 H1. rewrite H1 in Hts, Hpy. simpl in Hts, Hpy.
    split; [done|]. rewrite Hpy.
    destruct (py_server (sessions w)); [by left|done]. }
  intros [] w1 H1. rewrite H1 in Hts, Hpy. simpl in Hts, Hpy.
  assert (child_of (popen (command (ts_server (sessions w)))
                      (full_env os_environ (ts_server (sessions w))))
            (ts_server (sessions
               (if_py (λ py, on_py py (start json_loads json_dumps popen
                                         os_environ)) w1).2))
          ∧ match py_server (sessions w),
                  py_server (sessions
                    (if_py (λ py, on_py py (start json_loads json_dumps popen
                                              os_environ)) w1).2) with
            | None, None => True
            | Some py, Some py' =>
                child_of (popen (command py) (full_env os_environ py)) py'
            | _, _ => False
            end) as [Hts2 Hpy2].
  { unfold if_py. rewrite Hpy.
    destruct (py_server (sessions w)) as [py|]; [|simpl; by rewrite Hpy].
    rewrite on_py_ts_server.
    destruct (on_py_start_child py w1) as (py' & -> & Hc). done. }
  apply W_bind_post.
  { intros e w2 H2. rewrite H2 in Hts2, Hpy2. simpl in Hts2, Hpy2.
    split; [done|].
    destruct (py_server (sessions w)), (py_server (sessions w2));
      try done; by right. }
  intros [] w2 H2. rewrite H2 in Hts2, Hpy2. simpl in Hts2, Hpy2.
  match goal with
  | |- P (?m w2).2 => assert (keeps_children m) as Hk
  end.
  { apply keeps_bind;
      [apply keeps_on_ts; intros; apply list_tools_same_child|intros ts_tools].
    apply keeps_bind; [apply keeps_lift_w|intros _].
    apply keeps_bind.
    { apply keeps_if_py. intros py w' Hw'. unfold mbind, W_bind.
      pose proof (keeps_on_py (list_tools json_loads json_dumps py_str) py w'
                    list_tools_same_child Hw') as H.
      destruct (on_py py _ w') as [[tools|e] w'']; simpl in *; done. }
    intros _. apply keeps_bind.
    { destruct (Py.truthy test_repo); [apply keeps_ret|].
      apply keeps_bind; [|intros; apply keeps_lift_w].
      apply keeps_on_ts. intros. apply call_tool_same_child. }
    intros repo. apply keeps_bind; [apply keeps_run_plan|intros results].
    destruct (Py.truthy repo); [|apply keeps_ret].
    apply keeps_bind; [apply keeps_run_plan|intros; apply keeps_ret]. }
  destruct (Hk w2) as [Hsame_ts Hsame_py]. split.
  - by eapply child_of_same.
  - destruct (py_server (sessions w)) as [py|],
             (py_server (sessions w2)) as [py2|]; try done;
      match goal with
      | |- context [py_server (sessions ?wt)] =>
          destruct (py_server (sessions wt)) as [py3|]
      end; try done.
    right. by eapply child_of_same.
Qed.

Lemma W_bind_ret_eq {A B} (m : W A) (f : A → W B) (w w1 : world) (a : A) :
  m w = (Return a, w1) → (m ≫= f) w = f a w1.
Proof. intros H. unfold mbind, W_bind. by rewrite H. Qed.

Lemma W_bind_raise_eq {A B} (m : W A) (f : A → W B) (w w1 : world) (e : exn) :
  m w = (Raise e, w1) → (m ≫= f) w = (Raise e, w1).
Proof. intros H. unfold mbind, W_bind. by rewrite H. Qed.

Lemma finally_stdin (s : servers) :
  stdin <$> process (ts_server (run_evaluation_finally s).2)
  = stdin <$> process (ts_server s)
  ∧ stdin <$> (py_server (run_evaluation_finally s).2 ≫= process)
    = stdin <$> (py_server s ≫= process).
Proof.
  unfold run_evaluation_finally.
  pose proof (stop_stdin (ts_server s)) as Hts.
  destruct (stop (ts_server s)) as [[[]|e] ts']; simpl in *; [|done].
  destruct (py_server s) as [py|]; [|done].
  pose proof (stop_stdin py) as Hpy.
  by destruct (stop py).
Qed.

(** X22. The tool listing gates the run.  In a run whose handshakes
    succeed and whose TypeScript server lists its tools, a tool that is
    not a mapping with a hashable [name] ends the run with an exception
    before any tool is tested: the [try] block raises [KeyError] or
    [TypeError] in the state the listing request left, [run_evaluation]
    raises, and nothing is written to either child and no id is consumed
    after the listing request.  When every listed tool is such a mapping, a TypeScript-only
    run with a given repository gets through its [try] block and
    returns its results. *)
Theorem listing_gates_run (python_cmd typescript_cmd : list string)
    (env : gmap string string) (test_repo : option string) (ts_only : bool)
    (message_id : N) (printed : list string) (w1 w2 w3 : world)
    (l : list value) :
  let w0 :=
    mkWorld (mkServers (mkMCPServer "TypeScript" typescript_cmd env None)
               (if ts_only then None
                else Some (mkMCPServer "Python" python_cmd env None)))
            message_id printed in
  let out :=
    run_evaluation json_loads json_dumps popen os_environ set_repr set_iter
      py_str exn_str python_cmd typescript_cmd env test_repo ts_only
      message_id printed in
  on_ts (start json_loads json_dumps popen os_environ) w0 = (Return (), w1) →
  if_py (λ py, on_py py (start json_loads json_dumps popen os_environ)) w1
    = (Return (), w2) →
  on_ts (list_tools json_loads json_dumps py_str) w2 = (Return (VList l), w3) →
  (forallb named l = false →
   (∃ e, (e = KeyError ∨ e = TypeError)
         ∧ run_evaluation_try json_loads json_dumps popen os_environ set_repr
             set_iter py_str exn_str (repo_value test_repo) w0 = (Raise e, w3))
   ∧ raises out.1
   ∧ w_message_id out.2 = w_message_id w3
   ∧ stdin <$> process (ts_server (sessions out.2))
     = stdin <$> process (ts_server (sessions w3))
   ∧ stdin <$> (py_server (sessions out.2) ≫= process)
     = stdin <$> (py_server (sessions w3) ≫= process))
  ∧ (forallb named l = true →
     ts_only = true → Py.truthy (repo_value test_repo) = true →
     ∃ rs w',
       run_evaluation_try json_loads json_dumps popen os_environ set_repr
         set_iter py_str exn_str (repo_value test_repo) w0 = (Return rs, w')
       ∧ tool_name <$> rs = (SAFE_TOOLS.*1 ++ SAFE_TOOLS_WITH_REPO.*1)%list).
Proof.
  cbv zeta. intros H1 H2 H3.
  pose proof (listing_named l) as Hlisting. split.
  - intros Hbad. rewrite Hbad in Hlisting.
    destruct Hlisting as (e & He & Hkind).
    assert (run_evaluation_try json_loads json_dumps popen os_environ set_repr
              set_iter py_str exn_str (repo_value test_repo)
              (mkWorld (mkServers (mkMCPServer "TypeScript" typescript_cmd env None)
                          (if ts_only then None
                           else Some (mkMCPServer "Python" python_cmd env None)))
                       message_id printed)
            = (Raise e, w3)) as Htry.
    { unfold run_evaluation_try.
      rewrite (W_bind_ret_eq _ _ _ _ _ H1), (W_bind_ret_eq _ _ _ _ _ H2),
        (W_bind_ret_eq _ _ _ _ _ H3).
      apply W_bind_raise_eq. unfold lift_w. by rewrite He. }
    split; [by exists e|].
    unfold run_evaluation. rewrite Htry.
    destruct (finally_stdin (sessions w3)) as [Hts Hpy].
    destruct (run_evaluation_finally (sessions w3)) as [[[]|e'] s']; done.
  - intros Hgood -> Htruthy. rewrite Hgood in Hlisting.
    assert (py_server (sessions w3) = None) as Hnone.
    { pose proof (on_ts_py_server (start json_loads json_dumps popen os_environ)
                    (mkWorld (mkServers
                                (mkMCPServer "TypeScript" typescript_cmd env None)
                                None) message_id printed)) as Hp1.
      rewrite H1 in Hp1. simpl in Hp1.
      unfold if_py in H2. rewrite Hp1 in H2. injection H2 as <-.
      pose proof (on_ts_py_server (list_tools json_loads json_dumps py_str) w1)
        as Hp3.
      rewrite H3 in Hp3. simpl in Hp3. congruence. }
    unfold run_evaluation_try.
    rewrite (W_bind_ret_eq _ _ _ _ _ H1), (W_bind_ret_eq _ _ _ _ _ H2),
      (W_bind_ret_eq _ _ _ _ _ H3).
    rewrite (W_bind_ret_eq _ _ w3 w3 ()); [|unfold lift_w; by rewrite Hlisting].
    rewrite (W_bind_ret_eq _ _ w3 w3 ()); [|unfold if_py; by rewrite Hnone].
    rewrite Htruthy.
    rewrite (W_bind_ret_eq _ _ w3 w3 (repo_value test_repo)); [|done].
    pose proof (run_plan_names FirstLoop SAFE_TOOLS w3) as Hn1.
    destruct (run_plan json_loads json_dumps set_repr set_iter exn_str
                FirstLoop SAFE_TOOLS w3) as [rs1 w4] eqn:Hplan1.
    rewrite (W_bind_ret_eq _ _ w3 w4 rs1); [|unfold total; by rewrite Hplan1].
    rewrite Htruthy.
    match goal with
    | |- context [run_plan _ _ _ _ _ RepoLoop ?pl] =>
        pose proof (run_plan_names RepoLoop pl w4) as Hn2;
        destruct (run_plan json_loads json_dumps set_repr set_iter exn_str
                    RepoLoop pl w4) as [rs2 w5] eqn:Hplan2;
        rewrite (W_bind_ret_eq _ _ w4 w5 rs2); [|unfold total; by rewrite Hplan2]
    end.
    exists (rs1 ++ rs2)%list, w5. split; [done|].
    simpl in Hn1, Hn2. rewrite fmap_app, Hn1. f_equal. exact Hn2.
Qed.

(** What the [finally] block does to the two children. *)
Lemma finally_children (s : servers) (p : Popen) :
  process (ts_server s) = Some p →
  signals <$> process (ts_server (run_evaluation_finally s).2)
  = Some (signals p ++ if poll p then [] else [SIGTERM])%list
  ∧ match py_server s with
    | None => py_server (run_evaluation_finally s).2 = None
    | Some py =>
        match process py with
        | None => py_server (run_evaluation_finally s).2 = Some py
        | Some q =>
            signals <$> (py_server (run_evaluation_finally s).2 ≫= process)
            = Some (signals q
                    ++ if poll p || exits_within p 5
                       then if poll q then [] else [SIGTERM]
                       else [])%list
        end
    end.
Proof.
  intros Hp. unfold run_evaluation_finally.
  pose proof (stop_signals _ _ Hp) as Hsig.
  pose proof (stop_started _ _ Hp) as Hstop.
  destruct (stop (ts_server s)) as [[[]|e] ts'] eqn:Hs; simpl in Hsig.
  - assert (poll p || exits_within p 5 = true) as ->.
    { destruct (poll p); [done|]. by destruct (exits_within p 5). }
    destruct (py_server s) as [py|]; [|done].
    pose proof (stop_signals py) as Hsig'.
    destruct (process py) as [q|] eqn:Hq.
    + specialize (Hsig' q eq_refl). by destruct (stop py).
    + unfold stop. by rewrite Hq.
  - assert (poll p || exits_within p 5 = false) as ->.
    { destruct (poll p); [done|]. by destruct (exits_within p 5). }
    simpl. split; [done|].
    destruct (py_server s) as [py|]; [|done].
    destruct (process py) as [q|] eqn:Hq; [|done].
    simpl. by rewrite Hq, app_nil_r.
Qed.

(** X21. Release of the children.  Whatever happens in the [try] block
    of [run_evaluation], be it a failed handshake, a failed listing or a
    failed call, the TypeScript child is in the end sent the terminate
    signal once if it is still running when the teardown begins, and
    nothing if it has exited by then; it is never sent anything else.
    When it is gone by the end of the grace period, the same holds of
    the Python child if one was created; when it is not, the Python
    child is sent nothing. *)
Theorem run_evaluation_releases (python_cmd typescript_cmd : list string)
    (env : gmap string string) (test_repo : option string) (ts_only : bool)
    (message_id : N) (printed : list string) :
  let ts_child := popen typescript_cmd (env ∪ os_environ) in
  let py_child := popen python_cmd (env ∪ os_environ) in
  let final :=
    (run_evaluation json_loads json_dumps popen os_environ set_repr set_iter
       py_str exn_str python_cmd typescript_cmd env test_repo ts_only
       message_id printed).2 in
  signals <$> process (ts_server (sessions final))
  = Some (signals ts_child ++ if poll ts_child then [] else [SIGTERM])%list
  ∧ ∀ py q,
      py_server (sessions final) = Some py →
      process py = Some q →
      signals q
      = (signals py_child
         ++ if poll ts_child || exits_within ts_child 5
            then if poll py_child then [] else [SIGTERM]
            else [])%list.
Proof.
  cbv zeta. unfold run_evaluation.
  match goal with
  | |- context [run_evaluation_try _ _ _ _ _ _ _ _ ?v ?w0] =>
      pose proof (try_children v w0) as [Hts Hpy];
      destruct (run_evaluation_try json_loads json_dumps popen os_environ
                  set_repr set_iter py_str exn_str v w0) as [r wt]
  end.
  simpl in Hts, Hpy. unfold full_env in *. simpl in Hts, Hpy.
  destruct Hts as (p & Hp & Hsig & Hex & Hr).
  assert (poll p = poll (popen typescript_cmd (env ∪ os_environ))) as Hpoll.
  { unfold poll. by rewrite Hex, Hr. }
  destruct (finally_children (sessions wt) p Hp) as [Hfin_ts Hfin_py].
  rewrite Hpoll, Hsig in Hfin_ts.
  assert (∀ (x : result (list TestResult)) (y : result unit * servers),
            sessions (match y with
                      | (Return _, s) =>
                          (x, mkWorld s (w_message_id wt) (w_sys_stderr wt))
                      | (Raise e, s) =>
                          (Raise e, mkWorld s (w_message_id wt) (w_sys_stderr wt))
                      end).2 = y.2) as Hfinal.
  { intros x [[[]|e] s']; done. }
  rewrite Hfinal. split; [exact Hfin_ts|].
  intros py q Hpy' Hq. revert Hpy Hfin_py.
  destruct (py_server (sessions wt)) as [py1|]; intros Hpy Hfin_py;
    [|congruence].
  destruct ts_only; simpl in Hpy; [done|].
  destruct Hpy as [->|(q1 & Hq1 & Hsig1 & Hex1 & Hr1)].
  - simpl in Hfin_py. rewrite Hfin_py in Hpy'. injection Hpy' as <-. done.
  - rewrite Hq1, Hpy' in Hfin_py. simpl in Hfin_py.
    rewrite Hq in Hfin_py. simpl in Hfin_py.
    assert (poll q1 = poll (popen python_cmd (env ∪ os_environ))) as Hpoll1.
    { unfold poll. by rewrite Hex1, Hr1. }
    rewrite Hpoll, Hex, Hpoll1, Hsig1 in Hfin_py. congruence.
Qed.

End OrchestratorFacts.

(** ** The further theorems at sample inputs *)

Lemma elements_iter : set_iter_spec elements.
Proof. intros X. reflexivity. Defined.

(** A number against a string under [count]. *)
Lemma compare_results_types_witness :
  List.filter (about "count") (compare_results elements counted counted_as_text None)
  = [TypeMismatch "count" TInt TStr].
Proof.
  refine (proj2 (compare_results_types elements elements_iter counted
                   counted_as_text None "count" (VInt 5) (VStr "5")
                   _ _ _ _ _) _).
  - by_computation.
  - by_computation.
  - by_evaluation.
  - intros [H _]. revert H. by_evaluation.
  - reflexivity.
  - discriminate.
Defined.

(** A timestamp on one side only. *)
Lemma compare_results_ignores_witness :
  List.filter (about "updated")
    (compare_results elements counted counted_as_text None) = [].
Proof.
  apply (compare_results_ignores elements elements_iter counted counted_as_text
           None "updated").
  by_evaluation.
Defined.

(** Disjoint keys. *)
Lemma compare_results_missing_key_witness :
  List.filter (about "ok") (compare_results elements plain_call two_items None)
  = [KeysMissingInTypeScript
       ((dom plain_call ∖ default_ignore_keys)
        ∖ (dom two_items ∖ default_ignore_keys))].
Proof.
  refine (proj1 (compare_results_missing_key elements elements_iter plain_call
                   two_items None "ok" _ _) _ _).
  - by_evaluation.
  - intros [H _]. revert H. by_evaluation.
  - by_evaluation.
  - by_evaluation.
Defined.

(** One failed call is never a match. *)
Lemma compare_results_match_iff_witness :
  compare_results elements failed_call plain_call None ≠ [].
Proof.
  apply (proj2 (compare_results_match_iff elements elements_iter failed_call
                  plain_call None)).
  left. split; by_evaluation.
Defined.

(** Two listings of the same length, either way round. *)
Lemma compare_results_match_sym_witness :
  compare_results elements two_items two_items None = []
  ↔ compare_results elements two_items two_items None = [].
Proof.
  apply (compare_results_match_sym elements elements_iter two_items two_items
           None).
Defined.

(** A request on a fresh session whose server answers. *)
Lemma request_accounting_witness :
  one_request sample_dumps "initialize" initialize_params (fresh [tools_line])
    (child [tools_line] true)
    (_send_request sample_loads sample_dumps "initialize" initialize_params
       (fresh [tools_line])).2
  ∧ one_request sample_dumps "tools/list" (VDict ∅) (fresh [tools_line])
      (child [tools_line] true)
      (list_tools sample_loads sample_dumps sample_str (fresh [tools_line])).2
  ∧ one_request sample_dumps "tools/call"
      (call_params "list_projects" (VDict ∅)) (fresh [tools_line])
      (child [tools_line] true)
      (call_tool sample_loads sample_dumps "list_projects" (VDict ∅)
         (fresh [tools_line])).2.
Proof.
  apply (request_accounting sample_loads sample_dumps sample_str
           (fresh [tools_line]) (child [tools_line] true)
           "initialize" "list_projects" initialize_params (VDict ∅)).
  reflexivity.
Defined.

(** A server that wrote one line of noise and closed its output. *)
Lemma closed_stream_witness :
  (call_tool sample_loads sample_dumps "list_projects" (VDict ∅)
     (fresh [noise_line])).1
  = Raise (RuntimeError "Server TypeScript closed unexpectedly: ").
Proof.
  refine (proj2 (proj2 (closed_stream sample_loads sample_dumps sample_str
                          (fresh [noise_line]) (child [noise_line] true)
                          "tools/list" "list_projects" (VDict ∅) (VDict ∅)
                          _ _ _))).
  - reflexivity.
  - constructor; [left; by_computation|constructor].
  - reflexivity.
Defined.

(** The number 5 on a line of its own, before the response. *)
Lemma send_request_scalar_line_witness :
  (_send_request sample_loads sample_dumps "tools/list" (VDict ∅)
     (fresh ["5"; tools_line])).1 = Raise TypeError
  ∧ (λ q, (stdout q, stderr q))
      <$> process (session (_send_request sample_loads sample_dumps
                              "tools/list" (VDict ∅)
                              (fresh ["5"; tools_line])).2)
    = Some ([tools_line], EmptyString).
Proof.
  apply (send_request_scalar_line sample_loads sample_dumps
           (fresh ["5"; tools_line]) (child ["5"; tools_line] true)
           "tools/list" (VDict ∅) [] "5" [tools_line] (VInt 5)).
  - reflexivity.
  - reflexivity.
  - constructor.
  - by_computation.
  - reflexivity.
Defined.

(** A Python session that was created and never started. *)
Lemma unstarted_session_witness :
  call_tool sample_loads sample_dumps "list_projects" (VDict ∅) unstarted
  = (Raise (RuntimeError "Server Python not started"), unstarted).
Proof.
  refine (proj1 (proj2 (proj2 (proj2
            (unstarted_session sample_loads sample_dumps sample_str unstarted
               "tools/list" "list_projects" (VDict ∅) (VDict ∅) _))))).
  reflexivity.
Defined.



(** A response whose [result] is [null]. *)
Lemma call_tool_malformed_witness :
  call_tool more_loads sample_dumps "list_projects" (VDict ∅)
    (fresh [null_result_line])
  = (Raise AttributeError,
     (_send_request more_loads sample_dumps "tools/call"
        (call_params "list_projects" (VDict ∅)) (fresh [null_result_line])).2).
Proof.
  refine (proj1 (call_tool_malformed more_loads sample_dumps
                   (fresh [null_result_line])
                   (_send_request more_loads sample_dumps "tools/call"
                      (call_params "list_projects" (VDict ∅))
                      (fresh [null_result_line])).2
                   "list_projects" (VDict ∅) null_result_response _ _)
            VNone _ _).
  - by_computation.
  - by_computation.
  - by_computation.
  - discriminate.
Defined.

(** One pass in TypeScript-only mode. *)
Lemma run_test_ts_only_witness :
  run_test sample_loads sample_dumps sample_set_repr elements sample_exn_str
    FirstLoop "list_projects" ∅ alone
  = (mkTestResult "list_projects" true None (Some (VDict no_tools)) None [],
     (on_ts (call_tool sample_loads sample_dumps "list_projects" (VDict ∅))
        alone).2).
Proof.
  apply (run_test_ts_only sample_loads sample_dumps sample_set_repr elements
           sample_exn_str FirstLoop "list_projects" ∅ no_tools alone).
  - reflexivity.
  - by_computation.
Defined.

(** One pass with both servers answering alike. *)
Lemma run_test_compares_witness :
  (run_test sample_loads sample_dumps sample_set_repr elements sample_exn_str
     FirstLoop "list_projects" ∅ both).1
  = mkTestResult "list_projects"
      (bool_decide (compare_results elements no_tools no_tools None = []))
      (Some (VDict no_tools)) (Some (VDict no_tools)) None
      (message sample_set_repr <$> compare_results elements no_tools no_tools None).
Proof.
  refine (f_equal fst (proj1 (run_test_compares sample_loads sample_dumps
            sample_set_repr elements sample_exn_str FirstLoop "list_projects"
            ∅ no_tools no_tools (started "Python" [tools_line] true) both
            (on_ts (call_tool sample_loads sample_dumps "list_projects"
                      (VDict ∅)) both).2
            (on_py (started "Python" [tools_line] true)
               (call_tool sample_loads sample_dumps "list_projects" (VDict ∅))
               (on_ts (call_tool sample_loads sample_dumps "list_projects"
                         (VDict ∅)) both).2).2
            _ _ _))).
  - by_computation.
  - reflexivity.
  - by_computation.
Defined.


(** A TypeScript-only run whose server lists a tool without a name: the
    run raises after the three lines of the handshake and the listing,
    with two ids consumed. *)
Lemma listing_gates_run_witness :
  let w0 :=
    mkWorld (mkServers (mkMCPServer "TypeScript" ["node"; "dist/index.js"] ∅ None)
               None) 0 [] in
  let popen := sample_popen [tools_line; nameless_tool_line; tools_line] in
  let w1 := (on_ts (start odd_loads sample_dumps popen sample_environ) w0).2 in
  let w3 := (on_ts (list_tools odd_loads sample_dumps sample_str) w1).2 in
  forallb named [VDict ∅] = false
  ∧ raises nameless_run.1
  ∧ w_message_id nameless_run.2 = w_message_id w3
  ∧ w_message_id w3 = 2%N
  ∧ stdin <$> process (ts_server (sessions nameless_run.2))
    = stdin <$> process (ts_server (sessions w3))
  ∧ length <$> (stdin <$> process (ts_server (sessions w3))) = Some 3%nat.
Proof.
  cbv zeta.
  set (w0 := mkWorld (mkServers (mkMCPServer "TypeScript"
                                   ["node"; "dist/index.js"] ∅ None) None) 0 []).
  set (popen := sample_popen [tools_line; nameless_tool_line; tools_line]).
  set (w1 := (on_ts (start odd_loads sample_dumps popen sample_environ) w0).2).
  set (w3 := (on_ts (list_tools odd_loads sample_dumps sample_str) w1).2).
  destruct (listing_gates_run odd_loads sample_dumps popen sample_environ
              sample_set_repr elements sample_str sample_exn_str
              ["uv"; "run"] ["node"; "dist/index.js"] ∅ (Some "repo") true 0 []
              w1 w1 w3 [VDict ∅]) as [Hbad _].
  - by_computation.
  - by_computation.
  - by_computation.
  - destruct (Hbad eq_refl) as (_ & Hraise & Hid & Hts & _).
    split; [reflexivity|]. split; [exact Hraise|]. split; [exact Hid|].
    split; [by_computation|]. split; [exact Hts|by_computation].
Defined.


(** One pass with both servers started and answering. *)
Lemma run_test_ids_witness :
  w_message_id
    (run_test sample_loads sample_dumps sample_set_repr elements sample_exn_str
       FirstLoop "list_projects" ∅ both).2 = 2%N
  ∧ stdin <$> process (ts_server (sessions
      (run_test sample_loads sample_dumps sample_set_repr elements
         sample_exn_str FirstLoop "list_projects" ∅ both).2))
    = Some [(sample_dumps (request 1 "tools/call"
                             (call_params "list_projects" (VDict ∅)))
               ++ nl)%string]
  ∧ stdin <$> (py_server (sessions
      (run_test sample_loads sample_dumps sample_set_repr elements
         sample_exn_str FirstLoop "list_projects" ∅ both).2) ≫= process)
    = Some [(sample_dumps (request 2 "tools/call"
                             (call_params "list_projects" (VDict ∅)))
               ++ nl)%string].
Proof.
  apply (run_test_ids sample_loads sample_dumps sample_set_repr elements
           sample_exn_str FirstLoop "list_projects" ∅ both
           (on_ts (call_tool sample_loads sample_dumps "list_projects"
                     (VDict ∅)) both).2
           (VDict no_tools) (started "Python" [tools_line] true)
           (child [tools_line] true) (child [tools_line] true)).
  - reflexivity.
  - reflexivity.
  - reflexivity.
  - by_computation.
  - reflexivity.
Defined.
